(** * The grading client: rubric model, question model and RPC contract

    A shallow embedding of the Python package [core]:
    - [core/models/objective.py], [core/models/grading_criteria.py],
      [core/models/rubric.py], [core/models/short_answer.py];
    - [core/models/question.py], the earlier single-file version of the same
      classes, which the unit tests import;
    - [core/client/client.py], the JSON-RPC client;
    - [core/errors.py].

    Python objects live in a heap and are referred to by address, so that two
    names bound to one object observe each other's updates.  Methods are
    computations in a state-and-exception monad over that heap.  Floats are
    IEEE 754 binary64 values, as [spec_float] of the standard library. *)

From Stdlib Require Import ZArith Lia.
From Stdlib Require Import Floats.SpecFloat.
From stdpp Require Import base option list strings gmap.

#[local] Set Warnings "-register-all".
#[local] Open Scope string_scope.
#[local] Open Scope list_scope.

(** ** Python floats *)

Module PyFloat.

Definition prec : Z := 53.
Definition emax : Z := 1024.

Abbreviation float := spec_float.

(** The float nearest to [m * 2 ^ e]. *)
Definition of_scaled (m e : Z) : float := binary_normalize prec emax m e false.

Definition zero : float := S754_zero false.
Definition half : float := Eval vm_compute in of_scaled 1 (-1).
Definition one : float := Eval vm_compute in of_scaled 1 0.
Definition two : float := Eval vm_compute in of_scaled 2 0.
Definition nine_tenths : float := Eval vm_compute in
  SFdiv prec emax (of_scaled 9 0) (of_scaled 10 0).

Definition mul : float -> float -> float := SFmul prec emax.
Definition add : float -> float -> float := SFadd prec emax.

(** [x <= y], [x < y], [x == y] and [x != y]; every comparison with a NaN is
    false except [!=]. *)
Definition leb : float -> float -> bool := SFleb.
Definition ltb : float -> float -> bool := SFltb.
Definition eqb : float -> float -> bool := SFeqb.
Definition neb (x y : float) : bool := negb (SFeqb x y).

(** C's [fmod(x, 1.0)]: exact, with the sign of [x]; NaN for a NaN or an
    infinity.  The remainder keeps the exponent of [x]. *)
Definition fmod_one (x : float) : float :=
  match x with
  | S754_nan | S754_infinity _ => S754_nan
  | S754_zero s => S754_zero s
  | S754_finite s m e =>
      if (0 <=? e)%Z then S754_zero s
      else match (Z.pos m mod 2 ^ (- e))%Z with
           | Z.pos r => S754_finite s r e
           | _ => S754_zero s
           end
  end.

(** [x % 1], as CPython's [float_rem] computes it for the divisor [1.0]:
    [mod = fmod(x, 1.0)]; a non-zero [mod] of the wrong sign is shifted by
    the divisor, a zero [mod] takes the sign of the divisor. *)
Definition mod_one (x : float) : float :=
  let r := fmod_one x in
  if neb r zero then (if ltb r zero then add r one else r)
  else zero.

(** The float denotes an integer. *)
Definition is_integer (x : float) : Prop :=
  match x with
  | S754_zero _ => True
  | S754_finite _ m e => (0 <= e)%Z \/ (e < 0 /\ (2 ^ (- e) | Z.pos m))%Z
  | S754_infinity _ | S754_nan => False
  end.

End PyFloat.

Abbreviation float := spec_float.

(** ** Enumerations *)

Module Objective.

(** [class Objective(Enum)] *)
Inductive t :=
| FACTUAL | CLARITY | CREATIVITY | ANALYSIS | APPLICATION | EVIDENCE | REFLECTION.

(** The member's value, which is its key on the wire. *)
Definition value (o : t) : string :=
  match o with
  | FACTUAL => "factual understanding"
  | CLARITY => "clarity of writing"
  | CREATIVITY => "creativity"
  | ANALYSIS => "analytical skills"
  | APPLICATION => "application of knowledge"
  | EVIDENCE => "use of evidence"
  | REFLECTION => "self reflection"
  end.

Definition members : list t :=
  [FACTUAL; CLARITY; CREATIVITY; ANALYSIS; APPLICATION; EVIDENCE; REFLECTION].

(** [Objective(label)]: the member with that value, if there is one. *)
Definition of_value (label : string) : option t :=
  List.find (fun o => String.eqb (value o) label) members.

#[global] Instance eq_dec : EqDecision t.
Proof. solve_decision. Defined.

Definition to_nat (o : t) : nat :=
  match o with
  | FACTUAL => 0 | CLARITY => 1 | CREATIVITY => 2 | ANALYSIS => 3
  | APPLICATION => 4 | EVIDENCE => 5 | REFLECTION => 6
  end.

Definition of_nat (n : nat) : option t := members !! n.

#[global] Instance countable : Countable t.
Proof. apply (inj_countable to_nat of_nat). intros []; reflexivity. Defined.

End Objective.

(** The members of [class RubricType(Enum)] of rubric.py; what each member
    carries is given in [RubricType] below. *)
Inductive RubricType_t :=
| FACTUAL_RUBRIC | ANALYTICAL_RUBRIC | CREATIVE_RUBRIC | APPLICATION_RUBRIC
| COMPREHENSIVE_RUBRIC | COMMUNICATION_RUBRIC | CUSTOM_RUBRIC.

#[global] Instance RubricType_eq_dec : EqDecision RubricType_t.
Proof. solve_decision. Defined.

(** ** Values on the wire, exceptions *)

(** What [json.loads] yields and [json.dumps] accepts: [None], booleans,
    integers, floats, strings, lists, and dicts with string keys. *)
Inductive json :=
| JNull
| JBool (b : bool)
| JInt (z : Z)
| JFloat (x : float)
| JStr (s : string)
| JArr (items : list json)
| JObj (fields : gmap string json).

(** The message of a [ValidationError]: a literal of the source, or the JSON
    report [exp.json()] of a pydantic error, which quotes the validator's
    message [reason]. *)
Inductive message :=
| Text (s : string)
| PydanticJson (reason : string).

Inductive exn :=
| ValidationError (msg : message)              (* core.errors.ValidationError *)
| PydanticValidationError (reason : string)    (* pydantic_core.ValidationError *)
| ValueError (msg : string)
| AttributeError (msg : string)
| KeyError (key : string)
| TypeError (msg : string)
| NotImplementedError
| Exception (arg : json).                       (* the builtin, raised with one argument *)

(** [isinstance(e, ValueError)]; pydantic's error derives from [ValueError]. *)
Definition is_ValueError (e : exn) : bool :=
  match e with
  | ValueError _ | PydanticValidationError _ => true
  | _ => false
  end.

Definition is_AttributeError (e : exn) : bool :=
  match e with
  | AttributeError _ => true
  | _ => false
  end.

Inductive result (A : Type) :=
| Ok (a : A)
| Raise (e : exn).
Arguments Ok {A} a.
Arguments Raise {A} e.

#[global] Instance result_ret : MRet result := fun A a => Ok a.

#[global] Instance result_bind : MBind result := fun A B f r =>
  match r with
  | Ok a => f a
  | Raise e => Raise e
  end.

(** Truth value of a string: empty strings are false. *)
Definition truthy (s : string) : bool :=
  match s with
  | EmptyString => false
  | String _ _ => true
  end.

(** [needle in s] for two strings: [needle] occurs in [s]. *)
Fixpoint occurs (needle s : string) : bool :=
  String.prefix needle s ||
  match s with
  | EmptyString => false
  | String _ s' => occurs needle s'
  end.

(** [key in v] for a string [key]: a key of a dict, an element of a list, a
    substring of a string; other values are not iterable. *)
Definition json_contains (key : string) (v : json) : result bool :=
  match v with
  | JObj fields => Ok (bool_decide (is_Some (fields !! key)))
  | JArr items =>
      Ok (existsb (fun x => match x with JStr s => String.eqb s key | _ => false end) items)
  | JStr s => Ok (occurs key s)
  | _ => Raise (TypeError "argument is not iterable")
  end.

(** [v[key]] for a string [key]. *)
Definition json_getitem (v : json) (key : string) : result json :=
  match v with
  | JObj fields =>
      match fields !! key with
      | Some x => Ok x
      | None => Raise (KeyError key)
      end
  | JArr _ => Raise (TypeError "list indices must be integers or slices, not str")
  | JStr _ => Raise (TypeError "string indices must be integers, not 'str'")
  | _ => Raise (TypeError "object is not subscriptable")
  end.

(** ** Objects and the heap *)

Abbreviation addr := nat.

(** [class GradingCriteria(BaseModel)] *)
Record GradingCriteria_t := {
  objective : Objective.t;
  weight : float;
}.

(** [class Rubric]; the dict [criteria] holds references to criteria objects.
    Every constructor of the source passes a dict of its own making, so the
    dict is kept inside the object.  The dict is used by key and by size, and
    what is made by iterating over it is a dict again, so the order of its
    entries is not kept. *)
Record Rubric_t := {
  criteria : gmap Objective.t addr;
  _type : RubricType_t;
}.

(** [class ShortAnswerQuestion] *)
Record ShortAnswerQuestion_t := {
  body : string;
  example_answer : string;
  rubric : addr;
}.

Inductive object :=
| OGradingCriteria (c : GradingCriteria_t)
| ORubric (r : Rubric_t)
| OShortAnswerQuestion (q : ShortAnswerQuestion_t).

(** An address is an index in the heap; a new object goes to the end. *)
Abbreviation heap := (list object).

(** ** Computations: heap in, result or exception and heap out *)

Definition M (A : Type) : Type := heap -> result A * heap.

#[global] Instance M_ret : MRet M := fun A a h => (Ok a, h).

#[global] Instance M_bind : MBind M := fun A B f m h =>
  match m h with
  | (Ok a, h') => f a h'
  | (Raise e, h') => (Raise e, h')
  end.

Definition raise {A} (e : exn) : M A := fun h => (Raise e, h).

(** A pure call that may raise. *)
Definition lift {A} (r : result A) : M A := fun h => (r, h).

(** [try: m  except ...: handler]; a handler re-raises what it does not
    catch. *)
Definition try_except {A} (m : M A) (handler : exn -> M A) : M A := fun h =>
  match m h with
  | (Raise e, h') => handler e h'
  | r => r
  end.

Definition alloc (o : object) : M addr := fun h => (Ok (length h), h ++ [o]).

(** Assignment to the attributes of the object at [a], which exists. *)
Definition store (a : addr) (o : object) : M unit := fun h => (Ok tt, <[a := o]> h).

(** Attribute access on an object of the expected class. *)
Definition get_criteria (a : addr) : M GradingCriteria_t := fun h =>
  match h !! a with
  | Some (OGradingCriteria c) => (Ok c, h)
  | _ => (Raise (AttributeError "not a GradingCriteria"), h)
  end.

Definition get_rubric (a : addr) : M Rubric_t := fun h =>
  match h !! a with
  | Some (ORubric r) => (Ok r, h)
  | _ => (Raise (AttributeError "not a Rubric"), h)
  end.

Definition get_question (a : addr) : M ShortAnswerQuestion_t := fun h =>
  match h !! a with
  | Some (OShortAnswerQuestion q) => (Ok q, h)
  | _ => (Raise (AttributeError "not a ShortAnswerQuestion"), h)
  end.

(** A comprehension that builds a dict: the items are visited in order and
    each one updates the dict under construction. *)
Fixpoint for_fold {A B} (f : B -> A -> M B) (acc : B) (l : list A) : M B :=
  match l with
  | [] => mret acc
  | x :: l => acc' ← f acc x; for_fold f acc' l
  end.

(** A list comprehension: the elements are evaluated in order. *)
Fixpoint for_list {A B} (f : A -> M B) (l : list A) : M (list B) :=
  match l with
  | [] => mret []
  | x :: l => y ← f x; ys ← for_list f l; mret (y :: ys)
  end.

(** ** core/errors.py *)

Module ValidationError.

(** [ValidationError.from_pydantic(exp)]: the message is [exp.json()]. *)
Definition from_pydantic (reason : string) : exn :=
  ValidationError (PydanticJson reason).

End ValidationError.

(** ** core/models/grading_criteria.py *)

Module GradingCriteria.

(** The field validator of [weight]. *)
Definition validate_weight (value : float) : result float :=
  if PyFloat.leb value PyFloat.zero then
    Raise (ValueError "Weight must be greater than 0.")
  else if PyFloat.neb (PyFloat.mod_one (PyFloat.mul value PyFloat.two)) PyFloat.zero then
    Raise (ValueError "Weight must be a multiple of 0.5")
  else Ok value.

(** [BaseModel.__init__(objective=..., weight=...)]: pydantic runs the field
    validator and reports its [ValueError] as an error of its own; otherwise
    the instance is set up with the validated fields.  The arguments have
    their annotated types, so pydantic's own checks of them pass. *)
Definition BaseModel__init__ (objective : Objective.t) (weight : float) : M addr :=
  match validate_weight weight with
  | Ok value => alloc (OGradingCriteria {| objective := objective; weight := value |})
  | Raise (ValueError reason) => raise (PydanticValidationError reason)
  | Raise e => raise e
  end.

Definition __init__ (objective : Objective.t) (weight : float) : M addr :=
  try_except (BaseModel__init__ objective weight)
    (fun exp =>
       match exp with
       | PydanticValidationError reason => raise (ValidationError.from_pydantic reason)
       | _ => raise exp
       end).

End GradingCriteria.

(** ** core/models/rubric.py *)

Module RubricType.

(** The first component of the member's value. *)
Definition label (rt : RubricType_t) : string :=
  match rt with
  | FACTUAL_RUBRIC => "Factual Rubric"
  | ANALYTICAL_RUBRIC => "Analytical Rubric"
  | CREATIVE_RUBRIC => "Creative Rubric"
  | APPLICATION_RUBRIC => "Application Rubric"
  | COMPREHENSIVE_RUBRIC => "Comprehensive Rubric"
  | COMMUNICATION_RUBRIC => "Communication Rubric"
  | CUSTOM_RUBRIC => "Custom Rubric"
  end.

(** The second component of the member's value, [self._default_criteria]. *)
Definition _default_criteria (rt : RubricType_t) : list (Objective.t * float) :=
  match rt with
  | FACTUAL_RUBRIC =>
      [(Objective.FACTUAL, PyFloat.one); (Objective.EVIDENCE, PyFloat.one);
       (Objective.CLARITY, PyFloat.one)]
  | ANALYTICAL_RUBRIC =>
      [(Objective.ANALYSIS, PyFloat.one); (Objective.EVIDENCE, PyFloat.one);
       (Objective.REFLECTION, PyFloat.one)]
  | CREATIVE_RUBRIC =>
      [(Objective.CREATIVITY, PyFloat.one); (Objective.CLARITY, PyFloat.one);
       (Objective.REFLECTION, PyFloat.one)]
  | APPLICATION_RUBRIC =>
      [(Objective.APPLICATION, PyFloat.one); (Objective.ANALYSIS, PyFloat.one);
       (Objective.FACTUAL, PyFloat.one)]
  | COMPREHENSIVE_RUBRIC =>
      [(Objective.FACTUAL, PyFloat.one); (Objective.ANALYSIS, PyFloat.one);
       (Objective.APPLICATION, PyFloat.one); (Objective.CREATIVITY, PyFloat.one)]
  | COMMUNICATION_RUBRIC =>
      [(Objective.CLARITY, PyFloat.one); (Objective.REFLECTION, PyFloat.one);
       (Objective.CREATIVITY, PyFloat.one)]
  | CUSTOM_RUBRIC => []
  end.


(** The property [criteria]: one new [GradingCriteria] per default pair. *)
Definition criteria (rt : RubricType_t) : M (list addr) :=
  for_list (fun '(objective, weight) => GradingCriteria.__init__ objective weight)
    (_default_criteria rt).

End RubricType.

(** What [Rubric.from_dict] may be handed: a dict, given by its items in
    iteration order, with keys and values of the annotated types, or an object
    without an [items] attribute. *)
Inductive payload :=
| PayloadDict (items : list (string * float))
| PayloadNone
| PayloadStr (s : string)
| PayloadFloat (x : float)
| PayloadList (l : list json).

(** [payload.items()] *)
Definition payload_items (p : payload) : M (list (string * float)) :=
  match p with
  | PayloadDict items => mret items
  | PayloadNone => raise (AttributeError "'NoneType' object has no attribute 'items'")
  | PayloadStr _ => raise (AttributeError "'str' object has no attribute 'items'")
  | PayloadFloat _ => raise (AttributeError "'float' object has no attribute 'items'")
  | PayloadList _ => raise (AttributeError "'list' object has no attribute 'items'")
  end.

(** [Objective(label)] *)
Definition Objective_call (label : string) : M Objective.t :=
  match Objective.of_value label with
  | Some o => mret o
  | None => raise (ValueError "not a valid Objective")
  end.

Module Rubric.

Definition __init__ (criteria : gmap Objective.t addr) (_type : option RubricType_t)
  : M addr :=
  alloc (ORubric {| criteria := criteria; _type := default CUSTOM_RUBRIC _type |}).

(** The property [size]. *)
Definition size (self : addr) : M nat :=
  r ← get_rubric self; mret (base.size (criteria r)).

(** The property [rubric_type]. *)
Definition rubric_type (self : addr) : M RubricType_t :=
  r ← get_rubric self; mret (_type r).

(** [objective] is an [Objective] by its type, so the [isinstance] guard
    passes. *)
Definition add_criteria (self : addr) (objective : Objective.t) (weight : float)
  : M unit :=
  c ← GradingCriteria.__init__ objective weight;
  r ← get_rubric self;
  store self (ORubric {| criteria := <[objective := c]> (criteria r); _type := _type r |}).

Definition serialize (self : addr) : M (gmap string float) :=
  r ← get_rubric self;
  for_fold (fun (acc : gmap string float) '(objective, c) =>
              g ← get_criteria c;
              mret (<[Objective.value objective := weight g]> acc))
    ∅ (map_to_list (criteria r)).

Definition empty : M addr := __init__ ∅ None.

Definition from_rubric_type (rubric_type : RubricType_t) : M addr :=
  cs ← RubricType.criteria rubric_type;
  criteria ← for_fold (fun (acc : gmap Objective.t addr) c =>
                         g ← get_criteria c;
                         mret (<[objective g := c]> acc))
               ∅ cs;
  __init__ criteria (Some rubric_type).

Definition from_dict (payload : payload) : M addr :=
  try_except
    (items ← payload_items payload;
     criteria ← for_fold (fun (acc : gmap Objective.t addr) '(label, weight) =>
                            key ← Objective_call label;
                            objective ← Objective_call label;
                            c ← GradingCriteria.__init__ objective weight;
                            mret (<[key := c]> acc))
                  ∅ items;
     __init__ criteria None)
    (fun exp =>
       if is_ValueError exp then raise (ValidationError (Text "Invalid payload."))
       else if is_AttributeError exp then
         raise (ValidationError (Text "Invalid payload provided. Must be a dictionary."))
       else raise exp).

End Rubric.

(** ** core/client/client.py *)

Module RPCClient.

Definition HOSTED_ENDPOINT : string := "http://18.118.162.4/".

(** A client keeps its two attributes for life and is passed by value. *)
Record t := {
  endpoint : string;
  api_key : string;
}.

(** The reply of the HTTP library; [response.json()] decodes the body or
    raises. *)
Record Response := {
  Response_json : result json;
}.

Section Transport.

(** [os.environ] *)
Variable environ : gmap string string.

(** [requests.post(url, json=..., headers=..., timeout=10)]: one blocking
    request, which yields the reply or raises. *)
Variable requests_post : string -> json -> gmap string string -> result Response.

Definition __init__ (api_key : option string) : t :=
  let endpoint :=
    if truthy (default "" (environ !! "OVERRIDDEN_ENDPOINT"))
    then default "" (environ !! "OVERRIDDEN_ENDPOINT")
    else HOSTED_ENDPOINT in
  let api_key :=
    match api_key with
    | Some k => if truthy k then k else default "" (environ !! "TURING_API_KEY")
    | None => default "" (environ !! "TURING_API_KEY")
    end in
  {| endpoint := endpoint; api_key := api_key |}.

Definition headers (self : t) : gmap string string :=
  {[ "Authorization" := String.append "Bearer " (api_key self) ]}.

Definition payload (method : string) (params : json) : json :=
  JObj {[ "id" := JInt 1; "jsonrpc" := JStr "2.0";
          "method" := JStr method; "params" := params ]}.

Definition parse_response (response : Response) : result json :=
  response_data ← Response_json response;
  has_error ← json_contains "error" response_data;
  if has_error : bool then
    arg ← json_getitem response_data "error";
    Raise (Exception arg)
  else
    json_getitem response_data "result".

Definition _make_request (self : t) (method : string) (params : json) : result json :=
  response ← requests_post (endpoint self) (payload method params) (headers self);
  parse_response response.

Definition short_answer (self : t) (data : json) (answer : string)
  : result (json * json) :=
  result ← _make_request self "short_answer" (JArr [data; JStr answer]);
  feedback ← json_getitem result "feedback";
  score ← json_getitem result "score";
  mret (feedback, score).

End Transport.

End RPCClient.

(** ** core/models/short_answer.py *)

Module ShortAnswerQuestion.

(** The default of the parameter [rubric] is the value of [Rubric.empty()] at
    the time the [def] statement of [__init__] runs, when the module is
    loaded; the function keeps a reference to it. *)
Definition def__init__ : M addr := Rubric.empty.

Definition __init__ (__defaults__ : addr) (body example_answer : string)
  (rubric : option addr) : M addr :=
  alloc (OShortAnswerQuestion
           {| body := body; example_answer := example_answer;
              rubric := default __defaults__ rubric |}).

Definition add_criteria (self : addr) (objective : Objective.t) (weight : float)
  : M unit :=
  q ← get_question self;
  Rubric.add_criteria (rubric q) objective weight.

(** [isinstance(rubric, Rubric)] *)
Definition is_Rubric (a : addr) : M bool := fun h =>
  match h !! a with
  | Some (ORubric _) => (Ok true, h)
  | _ => (Ok false, h)
  end.

Definition set_rubric (self : addr) (rubric : addr) : M unit :=
  ok ← is_Rubric rubric;
  if ok : bool then
    q ← get_question self;
    store self (OShortAnswerQuestion
                  {| body := body q; example_answer := example_answer q;
                     rubric := rubric |})
  else raise (ValidationError (Text "Rubric must be an instance of the Rubric class.")).

Definition _is_valid (self : addr) : M unit :=
  q ← get_question self;
  n ← Rubric.size (rubric q);
  if bool_decide (n = 0) then
    raise (ValidationError (Text "Rubric must have at least one criteria."))
  else if negb (truthy (body q) && truthy (example_answer q)) then
    raise (ValidationError (Text "Question body and example answer cannot be empty."))
  else mret tt.

Definition _serialize (self : addr) : M json :=
  q ← get_question self;
  r ← Rubric.serialize (rubric q);
  mret (JObj {[ "question" := JStr (body q);
                "example_answer" := JStr (example_answer q);
                "rubric" := JObj (JFloat <$> r) ]}).

Section Transport.

Variable environ : gmap string string.
Variable requests_post : string -> json -> gmap string string -> result RPCClient.Response.

Definition grade (self : addr) (answer : string) : M (json * json) :=
  let client := RPCClient.__init__ environ None in
  data ← _serialize self;
  '(feedback, score) ← lift (RPCClient.short_answer requests_post client data answer);
  mret (feedback, score).

End Transport.

Definition from_rubric_type (__defaults__ : addr) (body example_answer : string)
  (rubric_type : RubricType_t) : M addr :=
  rubric ← Rubric.from_rubric_type rubric_type;
  __init__ __defaults__ body example_answer (Some rubric).

End ShortAnswerQuestion.

(** ** core/models/question.py

    The single-file version.  Its [Objective], [GradingCriteria] and the
    methods [size], [rubric_type], [add_criteria], [serialize] and [empty] of
    its [Rubric] read as those above; what differs is given here. *)

Module question.

(** [DEFAULT_RUBRIC_CRITERIA], a dict from rubric type to default pairs. *)
Definition DEFAULT_RUBRIC_CRITERIA (rt : RubricType_t) : list (Objective.t * float) :=
  RubricType._default_criteria rt.

Definition get_default_criteria (self : RubricType_t) : list (Objective.t * float) :=
  DEFAULT_RUBRIC_CRITERIA self.

Definition Rubric_from_rubric_type (rubric_type : RubricType_t) : M addr :=
  criteria ← for_fold (fun (acc : gmap Objective.t addr) '(objective, weight) =>
                         c ← GradingCriteria.__init__ objective weight;
                         mret (<[objective := c]> acc))
               ∅ (get_default_criteria rubric_type);
  Rubric.__init__ criteria (Some rubric_type).

Definition ShortAnswerQuestion__serialize (self : addr) : M json :=
  q ← get_question self;
  r ← Rubric.serialize (rubric q);
  mret (JObj {[ "body" := JStr (body q);
                "example_answer" := JStr (example_answer q);
                "rubric" := JObj (JFloat <$> r) ]}).

Definition ShortAnswerQuestion_grade (self : addr) (answer : string) : M (json * json) :=
  raise NotImplementedError.

End question.

(** ** Observations used in the statements *)

(** A weight the field validator lets through. *)
Definition valid_weight (w : float) : Prop :=
  GradingCriteria.validate_weight w = Ok w.

(** [rubric.criteria[o].weight], if [o] is a key of the dict. *)
Definition weight_of (h : heap) (rubric : addr) (o : Objective.t) : option float :=
  match h !! rubric with
  | Some (ORubric r) =>
      match criteria r !! o with
      | Some c =>
          match h !! c with
          | Some (OGradingCriteria g) => Some (weight g)
          | _ => None
          end
      | None => None
      end
  | _ => None
  end.

(** The object [rubric.criteria[o]], by its address. *)
Definition criteria_ref (h : heap) (rubric : addr) (o : Objective.t) : option addr :=
  match h !! rubric with
  | Some (ORubric r) => criteria r !! o
  | _ => None
  end.

(** The criteria object a default pair or a payload item gives rise to. *)
Definition criteria_object (p : Objective.t * float) : object :=
  OGradingCriteria {| objective := p.1; weight := p.2 |}.

(** The payload item of a pair. *)
Definition wire_item (p : Objective.t * float) : string * float :=
  (Objective.value p.1, p.2).

(** The sign bit of a float that has one. *)
Definition sign_is (s : bool) (x : float) : Prop :=
  match x with
  | S754_zero s' | S754_infinity s' | S754_finite s' _ _ => s' = s
  | S754_nan => True
  end.

(** A weight that is [<= 0], or whose double is not an integer. *)
Definition bad_weight (w : float) : Prop :=
  PyFloat.leb w PyFloat.zero = true
  \/ ~ PyFloat.is_integer (PyFloat.mul w PyFloat.two).

(** The rubric whose dict maps the objectives of [ds], in order, to the
    addresses [base], [base + 1], ... *)
Definition built_rubric (base : addr) (ds : list (Objective.t * float)) (ty : RubricType_t)
  : object :=
  ORubric {| criteria := list_to_map (zip ds.*1 (seq base (length ds))); _type := ty |}.

(** Two questions are made without a rubric argument, a criteria is added
    through the first, and the second is observed: the rubric of each, the
    size seen through the second before and after, and its serialization. *)
Definition shared_default_scenario (b1 e1 b2 e2 : string) (o : Objective.t) (w : float)
  : M (addr * addr * nat * nat * json) :=
  d ← ShortAnswerQuestion.def__init__;
  q1 ← ShortAnswerQuestion.__init__ d b1 e1 None;
  q2 ← ShortAnswerQuestion.__init__ d b2 e2 None;
  first ← get_question q1;
  second ← get_question q2;
  before ← Rubric.size (rubric second);
  _ ← ShortAnswerQuestion.add_criteria q1 o w;
  after ← Rubric.size (rubric second);
  data ← ShortAnswerQuestion._serialize q2;
  mret (rubric first, rubric second, before, after, data).

(** A transport that answers every request with the same decoded body. *)
Definition canned_transport (reply : json)
  : string -> json -> gmap string string -> result RPCClient.Response :=
  fun _ _ _ => Ok {| RPCClient.Response_json := Ok reply |}.

(** The body of the comprehension of [Rubric.from_dict], for one item. *)
Definition from_dict_item (acc : gmap Objective.t addr) (it : string * float)
  : M (gmap Objective.t addr) :=
  let '(label, weight) := it in
  key ← Objective_call label;
  objective ← Objective_call label;
  c ← GradingCriteria.__init__ objective weight;
  mret (<[key := c]> acc).

(** The payload is a dict. *)
Definition is_dict (p : payload) : bool :=
  match p with
  | PayloadDict _ => true
  | _ => false
  end.

(** The weight held at an address, 0.0 when no criteria is there. *)
Definition weight_at (h : heap) (c : addr) : float :=
  match h !! c with
  | Some (OGradingCriteria g) => weight g
  | _ => PyFloat.zero
  end.

(** The item of the serialization that an entry of the dict gives. *)
Definition serialize_item (h : heap) (oc : Objective.t * addr) : string * float :=
  (Objective.value oc.1, weight_at h oc.2).

(** The question of the serialization example, built with the classes of
    short_answer.py and rubric.py, and serialized. *)
Definition capital_question : M json :=
  d ← ShortAnswerQuestion.def__init__;
  r ← Rubric.from_rubric_type FACTUAL_RUBRIC;
  q ← ShortAnswerQuestion.__init__ d "What is the capital of Australia?" "Canberra" (Some r);
  ShortAnswerQuestion._serialize q.

(** The same with the classes of question.py. *)
Definition capital_question_py : M json :=
  d ← Rubric.empty;
  r ← question.Rubric_from_rubric_type FACTUAL_RUBRIC;
  q ← ShortAnswerQuestion.__init__ d "What is the capital of Australia?" "Canberra" (Some r);
  question.ShortAnswerQuestion__serialize q.

(** The rubric part of the expected serialization. *)
Definition capital_rubric : json :=
  JObj {[ "factual understanding" := JFloat PyFloat.one;
          "use of evidence" := JFloat PyFloat.one;
          "clarity of writing" := JFloat PyFloat.one ]}.

(** Every entry of the dict refers to a criteria object for its own key,
    with a weight the validator accepts. *)
Definition rubric_wf (h : heap) (R : Rubric_t) : Prop :=
  forall o c, criteria R !! o = Some c ->
    exists w, h !! c = Some (criteria_object (o, w)) /\ valid_weight w.

(** The heap as the methods leave it: rubrics are well formed, questions
    hold rubrics, criteria hold valid weights. *)
Definition heap_wf (h : heap) : Prop :=
  (forall a R, h !! a = Some (ORubric R) -> rubric_wf h R)
  /\ (forall a Q, h !! a = Some (OShortAnswerQuestion Q) ->
        exists R, h !! rubric Q = Some (ORubric R))
  /\ (forall a g, h !! a = Some (OGradingCriteria g) -> valid_weight (weight g)).

(** One heap keeps the criteria objects of another. *)
Definition keeps_criteria (h h' : heap) : Prop :=
  forall c g, h !! c = Some (OGradingCriteria g) -> h' !! c = Some (OGradingCriteria g).

(** A dict of criteria references, as a rubric that holds it. *)
Definition as_rubric (m : gmap Objective.t addr) : Rubric_t :=
  {| criteria := m; _type := CUSTOM_RUBRIC |}.

(** The content of a rubric: the weight under each of its objectives. *)
Definition rubric_weights (h : heap) (R : Rubric_t) : gmap Objective.t float :=
  weight_at h <$> criteria R.

(** Two questions are made, each with an empty rubric of its own, a criteria
    is added through the first, and the sizes of the three rubrics are read:
    that of the first question, that of the second, and that of the default. *)
Definition own_rubric_scenario (b1 e1 b2 e2 : string) (o : Objective.t) (w : float)
  : M (nat * nat * nat) :=
  d ← ShortAnswerQuestion.def__init__;
  r1 ← Rubric.empty;
  r2 ← Rubric.empty;
  q1 ← ShortAnswerQuestion.__init__ d b1 e1 (Some r1);
  q2 ← ShortAnswerQuestion.__init__ d b2 e2 (Some r2);
  _ ← ShortAnswerQuestion.add_criteria q1 o w;
  first ← get_question q1;
  second ← get_question q2;
  n1 ← Rubric.size (rubric first);
  n2 ← Rubric.size (rubric second);
  n0 ← Rubric.size d;
  mret (n1, n2, n0).

(** The value is a dict. *)
Definition is_object (v : json) : bool :=
  match v with
  | JObj _ => true
  | _ => false
  end.

(** ** ShortAnswerQuestion.from_dict of short_answer.py *)

(** What [ShortAnswerQuestion.from_dict] may be handed: a dict, seen through
    the three keys the method reads.  A key is absent, or present with a value
    of the type its consumer is annotated with. *)
Record question_payload := {
  payload_body : option string;
  payload_example_answer : option string;
  payload_rubric : option payload;
}.

(** [payload[key]] *)
Definition payload_getitem {A} (key : string) (entry : option A) : M A :=
  match entry with
  | Some v => mret v
  | None => raise (KeyError key)
  end.

(** The classmethod; the arguments of [cls(...)] are evaluated in the order
    they are written. *)
Definition ShortAnswerQuestion_from_dict (__defaults__ : addr) (payload : question_payload)
  : M addr :=
  body ← payload_getitem "body" (payload_body payload);
  example_answer ← payload_getitem "example_answer" (payload_example_answer payload);
  rubric_payload ← payload_getitem "rubric" (payload_rubric payload);
  rubric ← Rubric.from_dict rubric_payload;
  ShortAnswerQuestion.__init__ __defaults__ body example_answer (Some rubric).

(** A value of the wire seen at the types of [from_dict]: the same dict, when
    its entries have those types. *)
Definition as_str (v : json) : option string :=
  match v with
  | JStr s => Some s
  | _ => None
  end.

Definition as_float (v : json) : option float :=
  match v with
  | JFloat x => Some x
  | _ => None
  end.

Definition as_rubric_payload (v : json) : option payload :=
  match v with
  | JObj fields =>
      if bool_decide (map_Forall (fun _ x => is_Some (as_float x)) fields)
      then Some (PayloadDict (map_to_list (omap as_float fields)))
      else None
  | JNull => Some PayloadNone
  | JStr s => Some (PayloadStr s)
  | JFloat x => Some (PayloadFloat x)
  | JArr l => Some (PayloadList l)
  | JBool _ | JInt _ => None
  end.

(** An entry of a dict: absent, or present and seen through [f]. *)
Definition as_entry {A} (f : json -> option A) (entry : option json) : option (option A) :=
  match entry with
  | None => Some None
  | Some v => Some <$> f v
  end.

Definition as_question_payload (v : json) : option question_payload :=
  match v with
  | JObj fields =>
      b ← as_entry as_str (fields !! "body");
      e ← as_entry as_str (fields !! "example_answer");
      r ← as_entry as_rubric_payload (fields !! "rubric");
      Some {| payload_body := b; payload_example_answer := e; payload_rubric := r |}
  | _ => None
  end.

(* ================================================================== *)
(** * Properties *)

(** ** Floats *)

Lemma binary_round_aux_sign p em s m e l :
  sign_is s (binary_round_aux p em s m e l).
Proof.
  unfold binary_round_aux.
  destruct (shr_fexp p em m e l) as [mrs' e'].
  destruct (shr_fexp p em _ e' loc_Exact) as [mrs'' e''].
  destruct (shr_m mrs''); simpl; [done | | done].
  destruct (e'' <=? em - p)%Z; done.
Qed.

Lemma leb_zero_false_sign (w : float) :
  PyFloat.leb w PyFloat.zero = false -> sign_is false w.
Proof. destruct w as [s|s| |s m e]; simpl; try destruct s; simpl; done. Qed.

Lemma mul_two_sign (w : float) :
  sign_is false w -> sign_is false (PyFloat.mul w PyFloat.two).
Proof.
  destruct w as [s|s| |s m e]; simpl; intros Hs; try done.
  - by subst.
  - by subst.
  - subst s. apply binary_round_aux_sign.
Qed.

(** On a float that is not negative, the remainder modulo one is non-zero
    exactly when the float is not an integer. *)
Lemma mod_one_neb_zero (x : float) :
  sign_is false x ->
  PyFloat.neb (PyFloat.mod_one x) PyFloat.zero = true <-> ~ PyFloat.is_integer x.
Proof.
  destruct x as [s|s| |s m e]; simpl; intros Hs; subst; try (cbn; tauto).
  - cbn. split; [done | tauto].
  - unfold PyFloat.mod_one, PyFloat.fmod_one.
    destruct (Z.leb_spec 0 e) as [He|He].
    + cbn. split; [done | intros H; exfalso; apply H; by left].
    + pose proof (Z.mod_pos_bound (Z.pos m) (2 ^ (- e))
                    ltac:(apply Z.pow_pos_nonneg; lia)) as Hb.
      destruct (Z.pos m mod 2 ^ (- e))%Z as [|r|r] eqn:Hr.
      * cbn. split; [done|]. intros H; exfalso; apply H. right. split; [done|].
        by apply Z.mod_divide; [lia|].
      * cbn. split; [|done]. intros _ [H|[_ H]]; [lia|].
        apply Z.mod_divide in H; lia.
      * lia.
Qed.

(** ** GradingCriteria *)

Lemma validate_weight_spec (w : float) :
  match GradingCriteria.validate_weight w with
  | Ok v => v = w /\ ~ bad_weight w
  | Raise e => (exists reason, e = ValueError reason) /\ bad_weight w
  end.
Proof.
  unfold GradingCriteria.validate_weight, bad_weight.
  destruct (PyFloat.leb w PyFloat.zero) eqn:Hle.
  { split; [eauto | by left]. }
  apply leb_zero_false_sign in Hle as Hs.
  pose proof (mod_one_neb_zero _ (mul_two_sign _ Hs)) as Hmod.
  destruct (PyFloat.neb _ _).
  - split; [eauto | right; by apply Hmod].
  - split; [done|]. intros [?|Hn]; [done|]. by apply Hmod in Hn.
Qed.

(** C2: constructing a GradingCriteria fails with ValidationError exactly
    when the weight is [<= 0] or twice the weight, as a float, is not an
    integer; in every other case the object is created, at a new address, with
    the weight as given. *)
Theorem GradingCriteria_init_weight (o : Objective.t) (w : float) (h : heap) :
  ((exists msg, GradingCriteria.__init__ o w h = (Raise (ValidationError msg), h))
   <-> (PyFloat.leb w PyFloat.zero = true
        \/ ~ PyFloat.is_integer (PyFloat.mul w PyFloat.two)))
  /\ (~ (PyFloat.leb w PyFloat.zero = true
         \/ ~ PyFloat.is_integer (PyFloat.mul w PyFloat.two)) ->
      GradingCriteria.__init__ o w h
      = (Ok (length h), h ++ [OGradingCriteria {| objective := o; weight := w |}])).
Proof.
  pose proof (validate_weight_spec w) as Hv. fold (bad_weight w).
  unfold GradingCriteria.__init__, GradingCriteria.BaseModel__init__, try_except.
  destruct (GradingCriteria.validate_weight w) as [v|e].
  - destruct Hv as [-> Hok]. cbn. split; [|done].
    split; [intros [? [=]] | done].
  - destruct Hv as [[reason ->] Hbad]. cbn. split; [|done].
    split; [done | eauto].
Qed.

Lemma init_valid (o : Objective.t) (w : float) (h : heap) :
  valid_weight w ->
  GradingCriteria.__init__ o w h = (Ok (length h), h ++ [criteria_object (o, w)]).
Proof.
  unfold valid_weight, GradingCriteria.__init__, GradingCriteria.BaseModel__init__,
    try_except.
  by intros ->.
Qed.

Lemma init_invalid (o : Objective.t) (w : float) (h : heap) :
  ~ valid_weight w ->
  exists msg, GradingCriteria.__init__ o w h = (Raise (ValidationError msg), h).
Proof.
  unfold valid_weight, GradingCriteria.__init__, GradingCriteria.BaseModel__init__,
    try_except.
  pose proof (validate_weight_spec w) as Hv.
  destruct (GradingCriteria.validate_weight w) as [v|e].
  - destruct Hv as [-> _]. done.
  - destruct Hv as [[reason ->] _]. cbn. eauto.
Qed.

(** ** Running computations *)

Lemma bind_ok {A B} (m : M A) (f : A -> M B) h a h' :
  m h = (Ok a, h') -> (m ≫= f) h = f a h'.
Proof. unfold mbind, M_bind. by intros ->. Qed.

Lemma bind_raise {A B} (m : M A) (f : A -> M B) h e h' :
  m h = (Raise e, h') -> (m ≫= f) h = (Raise e, h').
Proof. unfold mbind, M_bind. by intros ->. Qed.

(** ** Objective labels *)

Lemma of_value_value o : Objective.of_value (Objective.value o) = Some o.
Proof. by destruct o. Qed.

Lemma of_value_Some label o : Objective.of_value label = Some o -> label = Objective.value o.
Proof.
  unfold Objective.of_value. intros H.
  apply List.find_some in H as [_ H]. by apply String.eqb_eq in H.
Qed.

#[global] Instance value_inj : Inj (=) (=) Objective.value.
Proof.
  intros o1 o2 H. apply (f_equal Objective.of_value) in H.
  rewrite !of_value_value in H. by injection H.
Qed.

(** ** Rubric *)

(** Under distinct keys, filling a dict item by item gives the map of the items. *)
Lemma foldl_insert_list_to_map `{Countable K} {V} (l : list (K * V)) (acc : gmap K V) :
  NoDup l.*1 ->
  foldl (fun acc p => <[p.1 := p.2]> acc) acc l = list_to_map l ∪ acc.
Proof.
  revert acc. induction l as [|[k v] l IH]; intros acc Hnd; simpl.
  - by rewrite (left_id_L ∅ (∪)).
  - apply NoDup_cons in Hnd as [Hk Hnd]. rewrite IH by done.
    rewrite <-insert_union_r by (by apply not_elem_of_list_to_map_1).
    by rewrite insert_union_l.
Qed.

(** The criteria of a list of default pairs are created one after the other. *)
Lemma for_list_init (ds : list (Objective.t * float)) (h : heap) :
  Forall (fun p => valid_weight p.2) ds ->
  for_list (fun '(objective, weight) => GradingCriteria.__init__ objective weight) ds h
  = (Ok (seq (length h) (length ds)), h ++ (criteria_object <$> ds)).
Proof.
  revert h. induction ds as [|[o w] ds IH]; intros h Hv; simpl.
  - by rewrite app_nil_r.
  - apply Forall_cons in Hv as [Hw Hv].
    erewrite bind_ok by (by apply init_valid).
    erewrite bind_ok by (by apply IH).
    rewrite length_app, Nat.add_1_r, <-app_assoc. done.
Qed.

(** The dict comprehension of [from_rubric_type] over criteria that sit in
    the heap one after the other. *)
Lemma for_fold_index (ds : list (Objective.t * float)) base acc (H : heap) :
  (forall i p, ds !! i = Some p -> H !! (base + i) = Some (criteria_object p)) ->
  for_fold (fun (acc : gmap Objective.t addr) c =>
              g ← get_criteria c; mret (<[objective g := c]> acc))
    acc (seq base (length ds)) H
  = (Ok (foldl (fun acc p => <[p.1 := p.2]> acc) acc (zip ds.*1 (seq base (length ds)))), H).
Proof.
  revert base acc. induction ds as [|[o w] ds IH]; intros base acc Hds; simpl.
  - done.
  - pose proof (Hds 0 (o, w) eq_refl) as H0. rewrite Nat.add_0_r in H0.
    unfold mbind at 1, M_bind at 1. unfold mbind at 1, M_bind at 1.
    unfold get_criteria at 1. rewrite H0. cbn.
    apply IH. intros i p Hi.
    replace (S base + i) with (base + S i) by lia. by apply Hds.
Qed.

Lemma zip_seq_fst {A B} (l : list (A * B)) base :
  (zip l.*1 (seq base (length l))).*1 = l.*1.
Proof. apply fst_zip. by rewrite length_seq, length_fmap. Qed.

Lemma default_criteria_facts (rt : RubricType_t) :
  Forall (fun p => valid_weight p.2) (RubricType._default_criteria rt)
  /\ NoDup (RubricType._default_criteria rt).*1
  /\ Forall (fun p => p.2 = PyFloat.one) (RubricType._default_criteria rt).
Proof.
  destruct rt; (split; [|split]);
    solve [ repeat constructor | apply (bool_decide_unpack _); by vm_compute ].
Qed.

Lemma from_rubric_type_run (rt : RubricType_t) (h : heap) :
  let ds := RubricType._default_criteria rt in
  Rubric.from_rubric_type rt h
  = (Ok (length h + length ds),
     h ++ (criteria_object <$> ds) ++ [built_rubric (length h) ds rt]).
Proof.
  intros ds. destruct (default_criteria_facts rt) as (Hv & Hnd & _). fold ds in Hv, Hnd.
  unfold Rubric.from_rubric_type, RubricType.criteria. fold ds.
  erewrite bind_ok by (by apply for_list_init).
  erewrite bind_ok.
  2:{ apply for_fold_index. intros i p Hi.
      rewrite lookup_app_r by lia. rewrite Nat.add_comm, Nat.add_sub.
      by rewrite list_lookup_fmap, Hi. }
  rewrite foldl_insert_list_to_map by (by rewrite zip_seq_fst).
  rewrite (right_id_L ∅ (∪)).
  unfold Rubric.__init__, alloc, built_rubric. cbn.
  by rewrite length_app, length_fmap, <-app_assoc.
Qed.

Lemma weight_of_built h ds ty rest o :
  NoDup ds.*1 ->
  weight_of (h ++ (criteria_object <$> ds) ++ built_rubric (length h) ds ty :: rest)
    (length h + length ds) o
  = (list_to_map ds : gmap Objective.t float) !! o.
Proof.
  intros Hnd. unfold weight_of.
  rewrite lookup_app_r by lia. rewrite Nat.add_comm, Nat.add_sub.
  rewrite lookup_app_r by (rewrite length_fmap; lia).
  rewrite length_fmap, Nat.sub_diag. cbn.
  destruct (list_to_map ds !! o) as [w|] eqn:Hw.
  - apply elem_of_list_to_map_2, list_elem_of_lookup in Hw as [i Hi].
    erewrite (elem_of_list_to_map_1 _ o (length h + i)).
    + rewrite lookup_app_r by lia. rewrite Nat.add_comm, Nat.add_sub.
      rewrite lookup_app_l by (rewrite length_fmap; by eapply lookup_lt_Some).
      by rewrite list_lookup_fmap, Hi.
    + by rewrite zip_seq_fst.
    + apply list_elem_of_lookup. exists i. apply lookup_zip_Some. split.
      * by rewrite list_lookup_fmap, Hi.
      * apply lookup_seq. split; [done | by eapply lookup_lt_Some].
  - apply not_elem_of_list_to_map in Hw.
    rewrite (not_elem_of_list_to_map_1 _ o); [done|]. by rewrite zip_seq_fst.
Qed.

Lemma lookup_app_plus {A} (h l : list A) k : (h ++ l) !! (length h + k) = l !! k.
Proof. rewrite lookup_app_r by lia. f_equal. lia. Qed.

Lemma lookup_app_length {A} (h l : list A) : (h ++ l) !! length h = l !! 0.
Proof. rewrite <-(Nat.add_0_r (length h)) at 1. apply lookup_app_plus. Qed.

Lemma insert_app_plus {A} (h l : list A) k x :
  <[length h + k := x]> (h ++ l) = h ++ <[k := x]> l.
Proof. rewrite insert_app_r_alt by lia. do 2 f_equal. lia. Qed.

Lemma size_run (r : addr) (R : Rubric_t) (h : heap) :
  h !! r = Some (ORubric R) -> Rubric.size r h = (Ok (size (criteria R)), h).
Proof. intros Hr. unfold Rubric.size, mbind, M_bind, get_rubric. by rewrite Hr. Qed.

Lemma rubric_type_run (r : addr) (R : Rubric_t) (h : heap) :
  h !! r = Some (ORubric R) -> Rubric.rubric_type r h = (Ok (_type R), h).
Proof. intros Hr. unfold Rubric.rubric_type, mbind, M_bind, get_rubric. by rewrite Hr. Qed.

Lemma built_rubric_lookup h ds ty rest :
  (h ++ (criteria_object <$> ds) ++ built_rubric (length h) ds ty :: rest)
    !! (length h + length ds) = Some (built_rubric (length h) ds ty).
Proof.
  rewrite lookup_app_plus, <-(length_fmap criteria_object ds).
  by rewrite lookup_app_length.
Qed.

Lemma built_rubric_size base (ds : list (Objective.t * float)) :
  NoDup ds.*1 ->
  size (list_to_map (zip ds.*1 (seq base (length ds))) : gmap Objective.t addr)
  = length ds.
Proof.
  intros Hnd. rewrite map_size_list_to_map by (by rewrite zip_seq_fst).
  by rewrite length_zip, length_seq, length_fmap, Nat.min_id.
Qed.

(** C8: a rubric made from a preset has as many criteria as the preset has
    default pairs, holds every default pair with its weight, which is 1.0, and
    is tagged with the preset; the empty rubric has size 0 and the tag
    Custom. *)
Theorem Rubric_from_rubric_type_defaults (rt : RubricType_t) (h : heap) :
  (exists r h',
      Rubric.from_rubric_type rt h = (Ok r, h')
      /\ Rubric.size r h' = (Ok (length (RubricType._default_criteria rt)), h')
      /\ Rubric.rubric_type r h' = (Ok rt, h')
      /\ Forall (fun p => p.2 = PyFloat.one /\ weight_of h' r p.1 = Some p.2)
           (RubricType._default_criteria rt))
  /\ (exists r h',
         Rubric.empty h = (Ok r, h')
         /\ Rubric.size r h' = (Ok 0, h')
         /\ Rubric.rubric_type r h' = (Ok CUSTOM_RUBRIC, h')).
Proof.
  split.
  - destruct (default_criteria_facts rt) as (Hv & Hnd & Hone).
    eexists _, _. split; [apply from_rubric_type_run|].
    split; [|split].
    + erewrite size_run by apply built_rubric_lookup. cbn.
      by rewrite built_rubric_size.
    + by erewrite rubric_type_run by apply built_rubric_lookup.
    + apply Forall_forall. intros [o w] Hin. split.
      * by apply (proj1 (Forall_forall _ _) Hone (o, w)).
      * rewrite weight_of_built by done. by apply elem_of_list_to_map_1.
  - exists (length h), (h ++ [ORubric {| criteria := ∅; _type := CUSTOM_RUBRIC |}]).
    split; [done|]. split.
    + by erewrite size_run by (by rewrite lookup_app_length).
    + by erewrite rubric_type_run by (by rewrite lookup_app_length).
Qed.

Lemma add_criteria_run (r : addr) (R : Rubric_t) (o : Objective.t) (w : float) (h : heap) :
  h !! r = Some (ORubric R) ->
  valid_weight w ->
  Rubric.add_criteria r o w h
  = (Ok tt,
     <[r := ORubric {| criteria := <[o := length h]> (criteria R); _type := _type R |}]> h
       ++ [criteria_object (o, w)]).
Proof.
  intros Hr Hw. unfold Rubric.add_criteria.
  erewrite bind_ok by (by apply init_valid).
  pose proof (lookup_lt_Some _ _ _ Hr) as Hlt.
  unfold mbind, M_bind, get_rubric, store.
  rewrite lookup_app_l by done. rewrite Hr.
  by rewrite insert_app_l.
Qed.

(** C7: adding a criteria for an objective twice, with valid weights, leaves
    the size what it was after the first call; the weight stored under the
    objective is the second one, and it sits in an object that did not exist
    before the second call, while the object of the first call is unchanged. *)
Theorem Rubric_add_criteria_twice (h : heap) (r : addr) (R : Rubric_t)
    (o : Objective.t) (w1 w2 : float) :
  h !! r = Some (ORubric R) ->
  valid_weight w1 ->
  valid_weight w2 ->
  exists h1 h2 n c1 c2,
    Rubric.add_criteria r o w1 h = (Ok tt, h1)
    /\ Rubric.add_criteria r o w2 h1 = (Ok tt, h2)
    /\ Rubric.size r h1 = (Ok n, h1)
    /\ Rubric.size r h2 = (Ok n, h2)
    /\ weight_of h2 r o = Some w2
    /\ criteria_ref h1 r o = Some c1
    /\ criteria_ref h2 r o = Some c2
    /\ c1 <> c2
    /\ h1 !! c2 = None
    /\ h2 !! c1 = Some (criteria_object (o, w1))
    /\ h2 !! c2 = Some (criteria_object (o, w2)).
Proof.
  intros Hr Hw1 Hw2.
  pose proof (lookup_lt_Some _ _ _ Hr) as Hlt.
  set (R1 := {| criteria := <[o := length h]> (criteria R); _type := _type R |}).
  set (h1 := <[r := ORubric R1]> h ++ [criteria_object (o, w1)]).
  assert (Hr1 : h1 !! r = Some (ORubric R1)).
  { unfold h1. rewrite lookup_app_l by (by rewrite length_insert).
    by apply list_lookup_insert_eq. }
  assert (Hlen1 : length h1 = S (length h)).
  { unfold h1. rewrite length_app, length_insert. simpl. lia. }
  set (R2 := {| criteria := <[o := length h1]> (criteria R1); _type := _type R1 |}).
  set (h2 := <[r := ORubric R2]> h1 ++ [criteria_object (o, w2)]).
  assert (Hr2 : h2 !! r = Some (ORubric R2)).
  { unfold h2. rewrite lookup_app_l by (rewrite length_insert; lia).
    apply list_lookup_insert_eq. lia. }
  exists h1, h2, (size (criteria R1)), (length h), (length h1).
  split; [by apply add_criteria_run|].
  split; [by apply add_criteria_run|].
  split; [by apply size_run|].
  split.
  { erewrite size_run by done. do 2 f_equal. cbn.
    apply map_size_insert_Some. rewrite lookup_insert_eq. eauto. }
  split.
  { unfold weight_of. rewrite Hr2. cbn. rewrite lookup_insert_eq.
    unfold h2. rewrite <-(length_insert h1 r (ORubric R2)) at 1.
    by rewrite lookup_app_length. }
  split; [unfold criteria_ref; rewrite Hr1; cbn; apply lookup_insert_eq|].
  split; [unfold criteria_ref; rewrite Hr2; cbn; apply lookup_insert_eq|].
  split; [lia|].
  split; [by apply lookup_ge_None|].
  split.
  - unfold h2. rewrite lookup_app_l by (rewrite length_insert; lia).
    rewrite list_lookup_insert_ne by lia.
    unfold h1. rewrite <-(length_insert h r (ORubric R1)) at 1.
    by rewrite lookup_app_length.
  - unfold h2. rewrite <-(length_insert h1 r (ORubric R2)) at 1.
    by rewrite lookup_app_length.
Qed.

Lemma Rubric_add_criteria_twice_witness :
  exists h1 h2 n c1 c2,
    Rubric.add_criteria 0 Objective.FACTUAL PyFloat.one
      [ORubric {| criteria := ∅; _type := CUSTOM_RUBRIC |}] = (Ok tt, h1)
    /\ Rubric.add_criteria 0 Objective.FACTUAL PyFloat.half h1 = (Ok tt, h2)
    /\ Rubric.size 0 h1 = (Ok n, h1)
    /\ Rubric.size 0 h2 = (Ok n, h2)
    /\ weight_of h2 0 Objective.FACTUAL = Some PyFloat.half
    /\ criteria_ref h1 0 Objective.FACTUAL = Some c1
    /\ criteria_ref h2 0 Objective.FACTUAL = Some c2
    /\ c1 <> c2
    /\ h1 !! c2 = None
    /\ h2 !! c1 = Some (criteria_object (Objective.FACTUAL, PyFloat.one))
    /\ h2 !! c2 = Some (criteria_object (Objective.FACTUAL, PyFloat.half)).
Proof.
  apply (Rubric_add_criteria_twice
           [ORubric {| criteria := ∅; _type := CUSTOM_RUBRIC |}] 0
           {| criteria := ∅; _type := CUSTOM_RUBRIC |}
           Objective.FACTUAL PyFloat.one PyFloat.half);
    reflexivity.
Defined.

(** ** Stepping through a computation on a heap [h ++ l] *)

Lemma alloc_app (o : object) (h l : heap) :
  alloc o (h ++ l) = (Ok (length h + length l), h ++ (l ++ [o])).
Proof. unfold alloc. by rewrite length_app, app_assoc. Qed.

Lemma get_question_app (h l : heap) k Q :
  l !! k = Some (OShortAnswerQuestion Q) ->
  get_question (length h + k) (h ++ l) = (Ok Q, h ++ l).
Proof. intros Hk. unfold get_question. by rewrite lookup_app_plus, Hk. Qed.

Lemma get_rubric_app (h l : heap) k R :
  l !! k = Some (ORubric R) ->
  get_rubric (length h + k) (h ++ l) = (Ok R, h ++ l).
Proof. intros Hk. unfold get_rubric. by rewrite lookup_app_plus, Hk. Qed.

Lemma get_criteria_app (h l : heap) k g :
  l !! k = Some (OGradingCriteria g) ->
  get_criteria (length h + k) (h ++ l) = (Ok g, h ++ l).
Proof. intros Hk. unfold get_criteria. by rewrite lookup_app_plus, Hk. Qed.

Lemma store_app (h l : heap) k o :
  store (length h + k) o (h ++ l) = (Ok tt, h ++ <[k := o]> l).
Proof. unfold store. by rewrite insert_app_plus. Qed.

Lemma init_valid_app (o : Objective.t) (w : float) (h l : heap) :
  valid_weight w ->
  GradingCriteria.__init__ o w (h ++ l)
  = (Ok (length h + length l), h ++ (l ++ [criteria_object (o, w)])).
Proof. intros Hw. rewrite init_valid by done. by rewrite length_app, app_assoc. Qed.

Lemma ret_run {A} (a : A) (h : heap) : (mret a : M A) h = (Ok a, h).
Proof. done. Qed.

Lemma bind_assoc_run {A B C} (m : M A) (f : A -> M B) (g : B -> M C) (h : heap) :
  ((m ≫= f) ≫= g) h = (m ≫= fun a => f a ≫= g) h.
Proof. unfold mbind, M_bind. by destruct (m h) as [[a|e] h']. Qed.

Ltac run_step :=
  first
    [ rewrite bind_assoc_run
    | erewrite bind_ok by (apply alloc_app)
    | erewrite bind_ok by (apply get_question_app; reflexivity)
    | erewrite bind_ok by (apply get_rubric_app; reflexivity)
    | erewrite bind_ok by (apply get_criteria_app; reflexivity)
    | erewrite bind_ok by (apply store_app)
    | erewrite bind_ok by (apply init_valid_app; assumption)
    | erewrite bind_ok by (apply ret_run) ];
  cbn [length app Nat.add list_insert insert default from_option id
       rubric body example_answer criteria _type objective weight].

(** C4: questions made without a rubric argument hold the same rubric
    object, the one default made when the module is loaded: a criteria added
    through the first question shows in the size and in the serialization seen
    through the second. *)
Theorem default_rubric_is_shared (h : heap) (b1 e1 b2 e2 : string)
    (o : Objective.t) (w : float) :
  valid_weight w ->
  exists h',
    shared_default_scenario b1 e1 b2 e2 o w h
    = (Ok (length h, length h, 0, 1,
           JObj {[ "question" := JStr b2; "example_answer" := JStr e2;
                   "rubric" := JObj {[ Objective.value o := JFloat w ]} ]}),
       h').
Proof.
  intros Hw. eexists.
  rewrite <-(app_nil_r h) at 1.
  unfold shared_default_scenario, ShortAnswerQuestion.def__init__, Rubric.empty,
    Rubric.__init__, ShortAnswerQuestion.__init__.
  unfold Rubric.size, ShortAnswerQuestion.add_criteria, Rubric.add_criteria,
    ShortAnswerQuestion._serialize, Rubric.serialize.
  repeat run_step.
  rewrite insert_empty, map_to_list_singleton. cbn [for_fold].
  repeat run_step.
  rewrite insert_empty, map_fmap_singleton, map_size_empty, map_size_singleton.
  unfold mret, M_ret. by rewrite !Nat.add_0_r.
Qed.

Lemma default_rubric_is_shared_witness :
  exists h',
    shared_default_scenario "body" "answer" "another body" "another answer"
      Objective.FACTUAL PyFloat.one []
    = (Ok (0, 0, 0, 1,
           JObj {[ "question" := JStr "another body";
                   "example_answer" := JStr "another answer";
                   "rubric" := JObj {[ "factual understanding" := JFloat PyFloat.one ]} ]}),
       h').
Proof.
  apply (default_rubric_is_shared [] "body" "answer" "another body" "another answer"
           Objective.FACTUAL PyFloat.one).
  reflexivity.
Defined.

(** ** ShortAnswerQuestion: the validation gate *)

Lemma truthy_false (s : string) : truthy s = false <-> s = "".
Proof. by destruct s. Qed.

Lemma is_valid_run (h : heap) (q : addr) (Q : ShortAnswerQuestion_t) (R : Rubric_t) :
  h !! q = Some (OShortAnswerQuestion Q) ->
  h !! rubric Q = Some (ORubric R) ->
  ShortAnswerQuestion._is_valid q h
  = if bool_decide (size (criteria R) = 0) then
      (Raise (ValidationError (Text "Rubric must have at least one criteria.")), h)
    else if negb (truthy (body Q) && truthy (example_answer Q)) then
      (Raise (ValidationError (Text "Question body and example answer cannot be empty.")), h)
    else (Ok tt, h).
Proof.
  intros Hq Hr. unfold ShortAnswerQuestion._is_valid.
  unfold mbind at 1, M_bind at 1, get_question. rewrite Hq.
  erewrite bind_ok by (by apply size_run).
  case_bool_decide; [done|]. by destruct (negb _).
Qed.

(** C6: validation fails with the empty-rubric error whenever the rubric has
    size 0, whatever the strings are; it fails with a ValidationError whenever
    the body or the example answer is empty; and it succeeds when the rubric
    is not empty and both strings are not empty. *)
Theorem ShortAnswerQuestion_is_valid (h : heap) (q : addr)
    (Q : ShortAnswerQuestion_t) (R : Rubric_t) :
  h !! q = Some (OShortAnswerQuestion Q) ->
  h !! rubric Q = Some (ORubric R) ->
  (size (criteria R) = 0 ->
   ShortAnswerQuestion._is_valid q h
   = (Raise (ValidationError (Text "Rubric must have at least one criteria.")), h))
  /\ (body Q = "" \/ example_answer Q = "" ->
      exists msg, ShortAnswerQuestion._is_valid q h = (Raise (ValidationError msg), h))
  /\ (size (criteria R) <> 0 -> body Q = "" \/ example_answer Q = "" ->
      ShortAnswerQuestion._is_valid q h
      = (Raise (ValidationError
                  (Text "Question body and example answer cannot be empty.")), h))
  /\ (size (criteria R) <> 0 -> body Q <> "" -> example_answer Q <> "" ->
      ShortAnswerQuestion._is_valid q h = (Ok tt, h)).
Proof.
  intros Hq Hr. rewrite (is_valid_run h q Q R Hq Hr).
  assert (Hempty : body Q = "" \/ example_answer Q = ""
                   -> negb (truthy (body Q) && truthy (example_answer Q)) = true).
  { intros [->| ->]; [done|]. by rewrite andb_false_r. }
  repeat split.
  - intros ->. done.
  - intros He. case_bool_decide; [eauto|]. rewrite Hempty by done. eauto.
  - intros Hn He. rewrite bool_decide_false by done. by rewrite Hempty.
  - intros Hn Hb He. rewrite bool_decide_false by done.
    destruct (body Q); [done|]. by destruct (example_answer Q).
Qed.

Lemma ShortAnswerQuestion_is_valid_witness :
  let Q := {| body := ""; example_answer := "Canberra"; rubric := 0 |} in
  let R := {| criteria := ∅; _type := CUSTOM_RUBRIC |} in
  let h := [ORubric R; OShortAnswerQuestion Q] in
  (size (criteria R) = 0 ->
   ShortAnswerQuestion._is_valid 1 h
   = (Raise (ValidationError (Text "Rubric must have at least one criteria.")), h))
  /\ (body Q = "" \/ example_answer Q = "" ->
      exists msg, ShortAnswerQuestion._is_valid 1 h = (Raise (ValidationError msg), h))
  /\ (size (criteria R) <> 0 -> body Q = "" \/ example_answer Q = "" ->
      ShortAnswerQuestion._is_valid 1 h
      = (Raise (ValidationError
                  (Text "Question body and example answer cannot be empty.")), h))
  /\ (size (criteria R) <> 0 -> body Q <> "" -> example_answer Q <> "" ->
      ShortAnswerQuestion._is_valid 1 h = (Ok tt, h)).
Proof.
  intros Q R h.
  apply (ShortAnswerQuestion_is_valid h 1 Q R); reflexivity.
Defined.

(** ** RPCClient and grading *)

Section Client.

Variable environ : gmap string string.
Variable requests_post : string -> json -> gmap string string -> result RPCClient.Response.

Lemma parse_response_error (fields : gmap string json) (err : json) :
  fields !! "error" = Some err ->
  RPCClient.parse_response {| RPCClient.Response_json := Ok (JObj fields) |}
  = Raise (Exception err).
Proof.
  intros He. unfold RPCClient.parse_response. cbn.
  rewrite bool_decide_true by (rewrite He; eauto). cbn. by rewrite He.
Qed.

Lemma parse_response_result (fields : gmap string json) :
  fields !! "error" = None ->
  RPCClient.parse_response {| RPCClient.Response_json := Ok (JObj fields) |}
  = match fields !! "result" with
    | Some result => Ok result
    | None => Raise (KeyError "result")
    end.
Proof.
  intros He. unfold RPCClient.parse_response. cbn.
  rewrite bool_decide_false by (rewrite He; by intros [? ?]). done.
Qed.

Lemma short_answer_run (self : RPCClient.t) (data : json) (answer : string)
    (fields : gmap string json) :
  requests_post (RPCClient.endpoint self)
    (RPCClient.payload "short_answer" (JArr [data; JStr answer]))
    (RPCClient.headers self)
  = Ok {| RPCClient.Response_json := Ok (JObj fields) |} ->
  RPCClient.short_answer requests_post self data answer
  = match fields !! "error" with
    | Some err => Raise (Exception err)
    | None =>
        match fields !! "result" with
        | Some (JObj result) =>
            match result !! "feedback", result !! "score" with
            | Some feedback, Some score => Ok (feedback, score)
            | None, _ => Raise (KeyError "feedback")
            | Some _, None => Raise (KeyError "score")
            end
        | Some (JArr _) =>
            Raise (TypeError "list indices must be integers or slices, not str")
        | Some (JStr _) =>
            Raise (TypeError "string indices must be integers, not 'str'")
        | Some _ => Raise (TypeError "object is not subscriptable")
        | None => Raise (KeyError "result")
        end
    end.
Proof.
  intros Hpost. unfold RPCClient.short_answer, RPCClient._make_request.
  rewrite Hpost. cbn [mbind result_bind].
  destruct (fields !! "error") as [err|] eqn:He.
  - by rewrite (parse_response_error _ _ He).
  - rewrite (parse_response_result _ He).
    destruct (fields !! "result") as [[| | | | |items|result]|]; try done.
    cbn. destruct (result !! "feedback"); [|done]. cbn.
    by destruct (result !! "score").
Qed.

(** C10: a decoded response with an "error" key makes the client raise with
    exactly that payload; without one the client returns the "result" field,
    and [short_answer] returns the pair of its "feedback" and "score" fields,
    or raises KeyError for the first of them that is absent. *)
Theorem RPCClient_response_handling (self : RPCClient.t) (data : json) (answer : string)
    (fields : gmap string json) :
  (forall err,
      fields !! "error" = Some err ->
      RPCClient.parse_response {| RPCClient.Response_json := Ok (JObj fields) |}
      = Raise (Exception err))
  /\ (forall result,
         fields !! "error" = None -> fields !! "result" = Some result ->
         RPCClient.parse_response {| RPCClient.Response_json := Ok (JObj fields) |}
         = Ok result)
  /\ (requests_post (RPCClient.endpoint self)
        (RPCClient.payload "short_answer" (JArr [data; JStr answer]))
        (RPCClient.headers self)
      = Ok {| RPCClient.Response_json := Ok (JObj fields) |} ->
      (forall err,
          fields !! "error" = Some err ->
          RPCClient.short_answer requests_post self data answer = Raise (Exception err))
      /\ (forall result,
             fields !! "error" = None -> fields !! "result" = Some (JObj result) ->
             RPCClient.short_answer requests_post self data answer
             = match result !! "feedback", result !! "score" with
               | Some feedback, Some score => Ok (feedback, score)
               | None, _ => Raise (KeyError "feedback")
               | Some _, None => Raise (KeyError "score")
               end)).
Proof.
  split; [apply parse_response_error|].
  split.
  { intros result He Hr. by rewrite parse_response_result, Hr. }
  intros Hpost. rewrite (short_answer_run _ _ _ _ Hpost). split.
  - by intros err ->.
  - by intros result -> ->.
Qed.

(** C5: [grade] serializes the question, with no validation, and hands the
    serialization and the answer, as the two positional parameters of method
    "short_answer", to the transport; it returns the feedback and the score of
    the reply. *)
Theorem ShortAnswerQuestion_grade_delegates (h : heap) (q : addr) (answer : string)
    (data : json) (fields result : gmap string json) (feedback score : json) :
  let client := RPCClient.__init__ environ None in
  ShortAnswerQuestion._serialize q h = (Ok data, h) ->
  requests_post (RPCClient.endpoint client)
    (JObj {[ "id" := JInt 1; "jsonrpc" := JStr "2.0"; "method" := JStr "short_answer";
             "params" := JArr [data; JStr answer] ]})
    (RPCClient.headers client)
  = Ok {| RPCClient.Response_json := Ok (JObj fields) |} ->
  fields !! "error" = None ->
  fields !! "result" = Some (JObj result) ->
  result !! "feedback" = Some feedback ->
  result !! "score" = Some score ->
  ShortAnswerQuestion.grade environ requests_post q answer h
  = (RPCClient.short_answer requests_post client data answer, h)
  /\ ShortAnswerQuestion.grade environ requests_post q answer h
     = (Ok (feedback, score), h).
Proof.
  intros client Hser Hpost He Hr Hf Hs.
  assert (Hsa : RPCClient.short_answer requests_post client data answer
                = Ok (feedback, score)).
  { rewrite (short_answer_run _ _ _ _ Hpost). by rewrite He, Hr, Hf, Hs. }
  unfold ShortAnswerQuestion.grade. fold client.
  erewrite bind_ok by exact Hser.
  unfold mbind, M_bind, lift. by rewrite Hsa.
Qed.

End Client.

Lemma RPCClient_response_handling_witness :
  RPCClient.short_answer
    (canned_transport (JObj {[ "error" := JStr "bad request" ]}))
    (RPCClient.__init__ ∅ None) JNull "answer"
  = Raise (Exception (JStr "bad request"))
  /\ RPCClient.short_answer
       (canned_transport
          (JObj {[ "result" := JObj {[ "feedback" := JStr "good job";
                                       "score" := JFloat PyFloat.nine_tenths ]} ]}))
       (RPCClient.__init__ ∅ None) JNull "answer"
     = Ok (JStr "good job", JFloat PyFloat.nine_tenths).
Proof.
  split.
  - destruct (RPCClient_response_handling
                (canned_transport (JObj {[ "error" := JStr "bad request" ]}))
                (RPCClient.__init__ ∅ None) JNull "answer"
                {[ "error" := JStr "bad request" ]}) as (_ & _ & H).
    destruct (H eq_refl) as [Herr _]. by apply Herr.
  - destruct (RPCClient_response_handling
                (canned_transport
                   (JObj {[ "result" := JObj {[ "feedback" := JStr "good job";
                                                "score" := JFloat PyFloat.nine_tenths ]} ]}))
                (RPCClient.__init__ ∅ None) JNull "answer"
                {[ "result" := JObj {[ "feedback" := JStr "good job";
                                       "score" := JFloat PyFloat.nine_tenths ]} ]})
      as (_ & _ & H).
    destruct (H eq_refl) as [_ Hres]. by rewrite (Hres _ eq_refl eq_refl).
Defined.

Lemma ShortAnswerQuestion_grade_delegates_witness :
  let h := [ORubric {| criteria := ∅; _type := CUSTOM_RUBRIC |};
            OShortAnswerQuestion {| body := ""; example_answer := "Canberra"; rubric := 0 |}] in
  let reply := JObj {[ "result" := JObj {[ "feedback" := JStr "good job";
                                           "score" := JFloat PyFloat.nine_tenths ]} ]} in
  (exists msg, ShortAnswerQuestion._is_valid 1 h = (Raise (ValidationError msg), h))
  /\ ShortAnswerQuestion.grade ∅ (canned_transport reply) 1 "Sydney" h
     = (Ok (JStr "good job", JFloat PyFloat.nine_tenths), h).
Proof.
  intros h reply. split; [by eexists|].
  eapply (ShortAnswerQuestion_grade_delegates ∅ (canned_transport reply) h 1 "Sydney");
    reflexivity.
Defined.

(** ** Rubric.from_dict *)

Lemma from_dict_unfold (p : payload) :
  Rubric.from_dict p
  = try_except
      (items ← payload_items p;
       criteria ← for_fold from_dict_item ∅ items;
       Rubric.__init__ criteria None)
      (fun exp =>
         if is_ValueError exp then raise (ValidationError (Text "Invalid payload."))
         else if is_AttributeError exp then
           raise (ValidationError (Text "Invalid payload provided. Must be a dictionary."))
         else raise exp).
Proof. reflexivity. Qed.

Lemma valid_weight_dec (w : float) : {valid_weight w} + {~ valid_weight w}.
Proof.
  unfold valid_weight. pose proof (validate_weight_spec w) as Hv.
  destruct (GradingCriteria.validate_weight w) as [v|e].
  - left. by destruct Hv as [-> _].
  - by right.
Qed.

Lemma from_dict_item_ok (acc : gmap Objective.t addr) (label : string)
    (o : Objective.t) (w : float) (h : heap) :
  Objective.of_value label = Some o ->
  valid_weight w ->
  from_dict_item acc (label, w) h
  = (Ok (<[o := length h]> acc), h ++ [criteria_object (o, w)]).
Proof.
  intros Ho Hw. unfold from_dict_item, Objective_call. rewrite Ho.
  do 2 (erewrite bind_ok by reflexivity).
  by erewrite bind_ok by (by apply init_valid).
Qed.

Lemma from_dict_item_known (acc : gmap Objective.t addr) (o : Objective.t) (w : float)
    (h : heap) :
  valid_weight w ->
  from_dict_item acc (wire_item (o, w)) h
  = (Ok (<[o := length h]> acc), h ++ [criteria_object (o, w)]).
Proof. apply from_dict_item_ok, of_value_value. Qed.

Lemma from_dict_item_invalid (acc : gmap Objective.t addr) (label : string)
    (o : Objective.t) (w : float) (h : heap) :
  Objective.of_value label = Some o ->
  ~ valid_weight w ->
  exists msg, from_dict_item acc (label, w) h = (Raise (ValidationError msg), h).
Proof.
  intros Ho Hw. destruct (init_invalid o w h Hw) as [msg Hmsg]. exists msg.
  unfold from_dict_item, Objective_call. rewrite Ho.
  do 2 (erewrite bind_ok by reflexivity).
  by erewrite bind_raise by exact Hmsg.
Qed.

Lemma from_dict_item_unknown (acc : gmap Objective.t addr) (label : string)
    (w : float) (h : heap) :
  Objective.of_value label = None ->
  from_dict_item acc (label, w) h = (Raise (ValueError "not a valid Objective"), h).
Proof. intros Ho. unfold from_dict_item, Objective_call. by rewrite Ho. Qed.

(** The comprehension of [from_dict] over items with known labels and valid
    weights. *)
Lemma from_dict_fold_ok (ds : list (Objective.t * float)) acc (h : heap) :
  Forall (fun p => valid_weight p.2) ds ->
  for_fold from_dict_item acc (wire_item <$> ds) h
  = (Ok (foldl (fun acc p => <[p.1 := p.2]> acc) acc
           (zip ds.*1 (seq (length h) (length ds)))),
     h ++ (criteria_object <$> ds)).
Proof.
  revert acc h. induction ds as [|[o w] ds IH]; intros acc h Hv; simpl.
  - by rewrite app_nil_r.
  - apply Forall_cons in Hv as [Hw Hv].
    erewrite bind_ok by (by apply from_dict_item_known).
    rewrite IH by done.
    by rewrite length_app, Nat.add_1_r, <-app_assoc.
Qed.

(** The comprehension stops at an item with an unknown label, if an invalid
    weight did not stop it before. *)
Lemma from_dict_fold_unknown (items : list (string * float)) acc (h : heap) :
  Exists (fun it => Objective.of_value it.1 = None) items ->
  exists e h',
    for_fold from_dict_item acc items h = (Raise e, h')
    /\ (e = ValueError "not a valid Objective"
        \/ (exists msg, e = ValidationError msg)
           /\ Exists (fun it => ~ valid_weight it.2) items).
Proof.
  revert acc h. induction items as [|[label w] items IH]; intros acc h Hex.
  { by apply Exists_nil in Hex. }
  cbn [for_fold].
  destruct (Objective.of_value label) as [o|] eqn:Ho.
  - destruct (valid_weight_dec w) as [Hw|Hw].
    + erewrite bind_ok by (by apply from_dict_item_ok).
      apply Exists_cons in Hex as [Hex|Hex]; [cbn [fst] in Hex; congruence|].
      destruct (IH (<[o := length h]> acc) (h ++ [criteria_object (o, w)]) Hex)
        as (e & h' & -> & He).
      exists e, h'. split; [done|].
      destruct He as [->|[Hm Hx]]; [by left|right]. split; [done|].
      by apply Exists_cons_tl.
    + destruct (from_dict_item_invalid acc label o w h Ho Hw) as [msg Hmsg].
      exists (ValidationError msg), h. split.
      * by erewrite bind_raise by exact Hmsg.
      * right. split; [eauto|]. by apply Exists_cons_hd.
  - exists (ValueError "not a valid Objective"), h. split; [|by left].
    by erewrite bind_raise by (by apply from_dict_item_unknown).
Qed.

Lemma known_items (items : list (string * float)) :
  Forall (fun it => is_Some (Objective.of_value it.1)) items ->
  exists ds, items = wire_item <$> ds.
Proof.
  induction 1 as [|[label w] items [o Ho] _ [ds ->]].
  - by exists [].
  - exists ((o, w) :: ds). cbn [fst] in Ho. apply of_value_Some in Ho as ->.
    done.
Qed.

Lemma from_dict_run (ds : list (Objective.t * float)) (h : heap) :
  Forall (fun p => valid_weight p.2) ds ->
  Rubric.from_dict (PayloadDict (wire_item <$> ds)) h
  = (Ok (length h + length ds),
     h ++ (criteria_object <$> ds)
       ++ [ORubric {| criteria :=
                        foldl (fun acc p => <[p.1 := p.2]> acc) ∅
                          (zip ds.*1 (seq (length h) (length ds)));
                      _type := CUSTOM_RUBRIC |}]).
Proof.
  intros Hv. rewrite from_dict_unfold. unfold try_except.
  erewrite bind_ok by reflexivity.
  erewrite bind_ok by (by apply from_dict_fold_ok).
  unfold Rubric.__init__, alloc. cbn.
  by rewrite length_app, length_fmap, <-app_assoc.
Qed.

(** C9: [from_dict] fails with a ValidationError on every dict that has a
    label outside the vocabulary ("Invalid payload." when no weight is
    invalid), fails with the ValidationError "Invalid payload provided. Must
    be a dictionary." on every payload that is not a dict, and on a dict with
    known labels and valid weights yields a rubric tagged Custom. *)
Theorem Rubric_from_dict_errors :
  (forall items h,
      Exists (fun it => Objective.of_value it.1 = None) items ->
      exists msg h',
        Rubric.from_dict (PayloadDict items) h = (Raise (ValidationError msg), h')
        /\ (Forall (fun it => valid_weight it.2) items -> msg = Text "Invalid payload."))
  /\ (forall p h,
         is_dict p = false ->
         Rubric.from_dict p h
         = (Raise (ValidationError
                     (Text "Invalid payload provided. Must be a dictionary.")), h))
  /\ (forall items h,
         Forall (fun it => is_Some (Objective.of_value it.1) /\ valid_weight it.2) items ->
         exists r h',
           Rubric.from_dict (PayloadDict items) h = (Ok r, h')
           /\ Rubric.rubric_type r h' = (Ok CUSTOM_RUBRIC, h')).
Proof.
  split; [|split].
  - intros items h Hex. rewrite from_dict_unfold. unfold try_except.
    erewrite bind_ok by reflexivity.
    destruct (from_dict_fold_unknown items ∅ h Hex) as (e & h' & Hrun & He).
    erewrite bind_raise by exact Hrun.
    destruct He as [->|[[msg ->] Hinv]].
    + by exists (Text "Invalid payload."), h'.
    + exists msg, h'. split; [done|]. intros Hall. exfalso.
      apply Exists_exists in Hinv as (it & Hin & Hit).
      apply Hit. by apply (proj1 (Forall_forall _ _) Hall it).
  - intros p h Hp. by destruct p.
  - intros items h Hall.
    destruct (known_items items) as [ds ->].
    { eapply Forall_impl; [exact Hall|]. by intros it [? _]. }
    assert (Hv : Forall (fun p => valid_weight p.2) ds).
    { apply Forall_fmap in Hall. eapply Forall_impl; [exact Hall|].
      by intros [o w] [_ ?]. }
    eexists _, _. split; [by apply from_dict_run|].
    by erewrite rubric_type_run
      by (rewrite lookup_app_plus, <-(length_fmap criteria_object ds);
          by rewrite lookup_app_length).
Qed.

Lemma Rubric_from_dict_errors_witness :
  (exists h',
      Rubric.from_dict
        (PayloadDict [("creativity", PyFloat.half); ("spelling", PyFloat.one)]) []
      = (Raise (ValidationError (Text "Invalid payload.")), h'))
  /\ Rubric.from_dict (PayloadList [JStr "creativity"]) []
     = (Raise (ValidationError
                 (Text "Invalid payload provided. Must be a dictionary.")), [])
  /\ (exists r h',
         Rubric.from_dict
           (PayloadDict [("creativity", PyFloat.half); ("self reflection", PyFloat.two)]) []
         = (Ok r, h')
         /\ Rubric.rubric_type r h' = (Ok CUSTOM_RUBRIC, h')).
Proof.
  destruct Rubric_from_dict_errors as (Hunknown & Hshape & Hknown).
  split; [|split].
  - destruct (Hunknown [("creativity", PyFloat.half); ("spelling", PyFloat.one)] [])
      as (msg & h' & Hrun & Hmsg).
    { apply Exists_cons_tl, Exists_cons_hd. reflexivity. }
    exists h'. rewrite Hrun, Hmsg; [done|]. by repeat constructor.
  - by apply Hshape.
  - apply Hknown. repeat constructor; by eexists.
Defined.

(** ** Rubric.serialize and the round trip *)

Lemma serialize_fold (l : list (Objective.t * addr)) (acc : gmap string float) (h : heap) :
  Forall (fun oc => exists g, h !! oc.2 = Some (OGradingCriteria g)) l ->
  for_fold (fun (acc : gmap string float) '(objective, c) =>
              g ← get_criteria c;
              mret (<[Objective.value objective := weight g]> acc))
    acc l h
  = (Ok (foldl (fun acc p => <[p.1 := p.2]> acc) acc (serialize_item h <$> l)), h).
Proof.
  revert acc. induction l as [|[o c] l IH]; intros acc Hl; [done|].
  apply Forall_cons in Hl as [[g Hg] Hl]. cbn [for_fold fmap list_fmap foldl].
  cbn [snd] in Hg.
  assert (Hit : serialize_item h (o, c) = (Objective.value o, weight g)).
  { unfold serialize_item, weight_at. cbn [fst snd]. by rewrite Hg. }
  rewrite Hit. cbn [fst snd].
  unfold mbind at 1, M_bind at 1. unfold mbind at 1, M_bind at 1.
  unfold get_criteria at 1. rewrite Hg. cbn [mret M_ret].
  by rewrite IH.
Qed.

(** The serialization of a rubric whose content is the map [W]. *)
Lemma serialize_spec (h : heap) (r : addr) (R : Rubric_t) (W : gmap Objective.t float) :
  h !! r = Some (ORubric R) ->
  (forall o, weight_of h r o = W !! o) ->
  (forall o c, criteria R !! o = Some c -> is_Some (W !! o)) ->
  Rubric.serialize r h = (Ok (kmap Objective.value W), h).
Proof.
  intros Hr HW Hres.
  assert (Hlook : forall o c, criteria R !! o = Some c ->
                    exists g, h !! c = Some (OGradingCriteria g) /\ W !! o = Some (weight g)).
  { intros o c Hc. destruct (Hres o c Hc) as [w Hw].
    specialize (HW o). unfold weight_of in HW. rewrite Hr, Hc, Hw in HW.
    destruct (h !! c) as [[g| |]|]; try done. exists g. split; [done|]. congruence. }
  unfold Rubric.serialize.
  unfold mbind at 1, M_bind at 1, get_rubric. rewrite Hr.
  rewrite serialize_fold.
  2:{ apply Forall_forall. intros [o c] Hin. apply elem_of_map_to_list in Hin.
      destruct (Hlook o c Hin) as (g & Hg & _). eauto. }
  do 2 f_equal.
  assert (Hnd : NoDup (serialize_item h <$> map_to_list (criteria R)).*1).
  { rewrite <-list_fmap_compose.
    rewrite (list_fmap_ext _ (Objective.value ∘ fst) (map_to_list (criteria R)))
      by done.
    rewrite list_fmap_compose. apply NoDup_fmap_2; [apply _|].
    apply NoDup_fst_map_to_list. }
  rewrite foldl_insert_list_to_map by done. rewrite (right_id_L ∅ (∪)).
  apply map_eq. intros k. apply option_eq. intros w.
  rewrite <-elem_of_list_to_map by done.
  rewrite lookup_kmap_Some by apply _. rewrite list_elem_of_fmap. split.
  - intros ([o c] & [= -> ->] & Hin). apply elem_of_map_to_list in Hin.
    destruct (Hlook o c Hin) as (g & Hg & Hw). exists o. split; [done|].
    unfold weight_at. cbn. by rewrite Hg.
  - intros (o & -> & Hw). specialize (HW o). rewrite Hw in HW.
    unfold weight_of in HW. rewrite Hr in HW.
    destruct (criteria R !! o) as [c|] eqn:Hc; [|done].
    exists (o, c). split; [|by apply elem_of_map_to_list].
    unfold serialize_item, weight_at. cbn.
    destruct (h !! c) as [[g| |]|]; try done. congruence.
Qed.

Lemma wire_item_fst (ds : list (Objective.t * float)) :
  (wire_item <$> ds).*1 = Objective.value <$> ds.*1.
Proof. by rewrite <-!list_fmap_compose. Qed.

Lemma foldl_built_rubric (ds : list (Objective.t * float)) (base : addr) :
  NoDup ds.*1 ->
  ORubric {| criteria := foldl (fun acc p => <[p.1 := p.2]> acc) ∅
                           (zip ds.*1 (seq base (length ds)));
             _type := CUSTOM_RUBRIC |}
  = built_rubric base ds CUSTOM_RUBRIC.
Proof.
  intros Hnd. unfold built_rubric.
  rewrite foldl_insert_list_to_map by (by rewrite zip_seq_fst).
  by rewrite (right_id_L ∅ (∪)).
Qed.

(** Reading back the serialization of the content [W]. *)
Lemma from_dict_of_map (W : gmap Objective.t float) (h : heap) :
  map_Forall (fun _ w => valid_weight w) W ->
  exists ds,
    Rubric.from_dict (PayloadDict (map_to_list (kmap Objective.value W))) h
    = (Ok (length h + length ds),
       h ++ (criteria_object <$> ds) ++ [built_rubric (length h) ds CUSTOM_RUBRIC])
    /\ NoDup ds.*1
    /\ length ds = size W
    /\ (list_to_map ds : gmap Objective.t float) = W.
Proof.
  intros HW.
  set (items := map_to_list (kmap Objective.value W)).
  assert (Hitems : forall o w, (Objective.value o, w) ∈ items <-> W !! o = Some w).
  { intros o w. unfold items. rewrite elem_of_map_to_list.
    by rewrite lookup_kmap by apply _. }
  destruct (known_items items) as [ds Hds].
  { apply Forall_forall. intros [k w] Hin. unfold items in Hin.
    apply elem_of_map_to_list, lookup_kmap_Some in Hin as (o & -> & _); [|apply _].
    cbn [fst]. rewrite of_value_value. eauto. }
  assert (Hin : forall o w, (o, w) ∈ ds <-> W !! o = Some w).
  { intros o w. rewrite <-Hitems, Hds, list_elem_of_fmap. split.
    - intros H. by exists (o, w).
    - intros ([o' w'] & [= Ho ->] & H). by apply (inj Objective.value) in Ho as ->. }
  assert (Hnd : NoDup ds.*1).
  { apply (NoDup_fmap_1 Objective.value). rewrite <-wire_item_fst, <-Hds.
    apply NoDup_fst_map_to_list. }
  exists ds. rewrite Hds. split; [|split; [done|split]].
  - rewrite from_dict_run.
    + by rewrite foldl_built_rubric.
    + apply Forall_forall. intros [o w] Ho. apply Hin in Ho.
      by apply (map_Forall_lookup_1 _ _ _ _ HW Ho).
  - rewrite <-(length_fmap wire_item ds), <-Hds. unfold items.
    rewrite length_map_to_list.
    rewrite <-!length_map_to_list, map_to_list_kmap by apply _.
    by rewrite length_fmap.
  - apply map_eq. intros o. apply option_eq. intros w.
    by rewrite <-elem_of_list_to_map, Hin.
Qed.

(** C3: a rubric made from a preset is serialized and read back with
    [from_dict]: this succeeds, the new rubric has the size of the first and
    the same weight under every objective, and it is tagged Custom while the
    first keeps its preset. *)
Theorem Rubric_round_trip (rt : RubricType_t) (h : heap) :
  exists r h1 s r2 h2 n,
    Rubric.from_rubric_type rt h = (Ok r, h1)
    /\ Rubric.serialize r h1 = (Ok s, h1)
    /\ Rubric.from_dict (PayloadDict (map_to_list s)) h1 = (Ok r2, h2)
    /\ Rubric.size r h2 = (Ok n, h2)
    /\ Rubric.size r2 h2 = (Ok n, h2)
    /\ (forall o, weight_of h2 r2 o = weight_of h2 r o)
    /\ Rubric.rubric_type r h2 = (Ok rt, h2)
    /\ Rubric.rubric_type r2 h2 = (Ok CUSTOM_RUBRIC, h2).
Proof.
  destruct (default_criteria_facts rt) as (Hv & Hnd & _).
  set (ds := RubricType._default_criteria rt) in *.
  set (W := list_to_map ds : gmap Objective.t float).
  set (h1 := h ++ (criteria_object <$> ds) ++ [built_rubric (length h) ds rt]).
  assert (HW : map_Forall (fun _ w => valid_weight w) W).
  { intros o w Hw. apply elem_of_list_to_map_2 in Hw.
    by apply (proj1 (Forall_forall _ _) Hv (o, w)). }
  destruct (from_dict_of_map W h1 HW) as (ds2 & Hrun2 & Hnd2 & Hlen2 & HW2).
  set (R2 := built_rubric (length h1) ds2 CUSTOM_RUBRIC) in *.
  set (h2 := h1 ++ (criteria_object <$> ds2) ++ [R2]) in *.
  assert (Hh2 : h2 = h ++ (criteria_object <$> ds)
                       ++ built_rubric (length h) ds rt
                       :: ((criteria_object <$> ds2) ++ [R2])).
  { unfold h2, h1. by rewrite <-!app_assoc. }
  assert (Hr : h2 !! (length h + length ds) = Some (built_rubric (length h) ds rt)).
  { rewrite Hh2. apply built_rubric_lookup. }
  assert (Hr2 : h2 !! (length h1 + length ds2) = Some R2).
  { unfold h2. apply built_rubric_lookup. }
  exists (length h + length ds), h1, (kmap Objective.value W),
    (length h1 + length ds2), h2, (length ds).
  split; [apply from_rubric_type_run|].
  split.
  { apply (serialize_spec h1 _ _ W (built_rubric_lookup h ds rt [])).
    - intros o. by apply weight_of_built.
    - intros o c Hc. cbn in Hc. apply elem_of_list_to_map_2, elem_of_zip_l in Hc.
      apply list_elem_of_fmap in Hc as ([o' w] & -> & Hin).
      exists w. by apply elem_of_list_to_map_1. }
  split; [exact Hrun2|].
  split.
  { erewrite size_run by exact Hr. cbn. by rewrite built_rubric_size. }
  split.
  { erewrite size_run by exact Hr2. cbn. rewrite built_rubric_size by done.
    rewrite Hlen2. unfold W. by rewrite map_size_list_to_map. }
  split.
  { intros o.
    transitivity (W !! o).
    - rewrite <-HW2. exact (weight_of_built h1 ds2 CUSTOM_RUBRIC [] o Hnd2).
    - symmetry. rewrite Hh2. exact (weight_of_built h ds rt _ o Hnd). }
  split.
  - by erewrite rubric_type_run by exact Hr.
  - by erewrite rubric_type_run by exact Hr2.
Qed.

(** ** ShortAnswerQuestion: serialization *)

(** C1, at the question of the example: [_serialize] of short_answer.py puts
    the body under the key "question"; the result has no key "body". *)
Theorem short_answer_serialize_key :
  exists fields h',
    capital_question [] = (Ok (JObj fields), h')
    /\ fields = {[ "question" := JStr "What is the capital of Australia?";
                   "example_answer" := JStr "Canberra";
                   "rubric" := capital_rubric ]}
    /\ fields !! "body" = None.
Proof.
  eexists _, _. split; [by vm_compute|]. split; by vm_compute.
Qed.

(** The [_serialize] of question.py, which the unit test exercises, gives the
    expected mapping. *)
Lemma question_py_serialize_example :
  exists h',
    capital_question_py []
    = (Ok (JObj {[ "body" := JStr "What is the capital of Australia?";
                   "example_answer" := JStr "Canberra";
                   "rubric" := capital_rubric ]}), h').
Proof. eexists. by vm_compute. Qed.

Lemma question_py_serialize (h : heap) (q : addr) (Q : ShortAnswerQuestion_t)
    (s : gmap string float) :
  h !! q = Some (OShortAnswerQuestion Q) ->
  Rubric.serialize (rubric Q) h = (Ok s, h) ->
  question.ShortAnswerQuestion__serialize q h
  = (Ok (JObj {[ "body" := JStr (body Q);
                 "example_answer" := JStr (example_answer Q);
                 "rubric" := JObj (JFloat <$> s) ]}), h).
Proof.
  intros Hq Hs. unfold question.ShortAnswerQuestion__serialize.
  unfold mbind at 1, M_bind at 1, get_question. rewrite Hq.
  by erewrite bind_ok by exact Hs.
Qed.

Lemma short_answer_serialize (h : heap) (q : addr) (Q : ShortAnswerQuestion_t)
    (s : gmap string float) :
  h !! q = Some (OShortAnswerQuestion Q) ->
  Rubric.serialize (rubric Q) h = (Ok s, h) ->
  ShortAnswerQuestion._serialize q h
  = (Ok (JObj {[ "question" := JStr (body Q);
                 "example_answer" := JStr (example_answer Q);
                 "rubric" := JObj (JFloat <$> s) ]}), h).
Proof.
  intros Hq Hs. unfold ShortAnswerQuestion._serialize.
  unfold mbind at 1, M_bind at 1, get_question. rewrite Hq.
  by erewrite bind_ok by exact Hs.
Qed.

(** ** Worked cases *)

Example weight_half_accepted :
  GradingCriteria.validate_weight PyFloat.half = Ok PyFloat.half.
Proof. reflexivity. Qed.

Example weight_quarter_refused :
  GradingCriteria.validate_weight (PyFloat.of_scaled 1 (-2))
  = Raise (ValueError "Weight must be a multiple of 0.5").
Proof. reflexivity. Qed.

Example weight_negative_refused :
  GradingCriteria.validate_weight (PyFloat.of_scaled (-3) (-1))
  = Raise (ValueError "Weight must be greater than 0.").
Proof. reflexivity. Qed.

Example weight_doubling_overflows :
  GradingCriteria.validate_weight (PyFloat.of_scaled 1 1023)
  = Raise (ValueError "Weight must be a multiple of 0.5").
Proof. reflexivity. Qed.

Example unknown_label_refused :
  Rubric.from_dict (PayloadDict [("not an objective", PyFloat.one)]) []
  = (Raise (ValidationError (Text "Invalid payload.")), []).
Proof. reflexivity. Qed.

(** The four cases of [test__is_valid_method]. *)
Example test_is_valid_method :
  let factual := {| criteria := {[ Objective.FACTUAL := 2 ]}; _type := FACTUAL_RUBRIC |} in
  let none := {| criteria := ∅; _type := CUSTOM_RUBRIC |} in
  let criteria := criteria_object (Objective.FACTUAL, PyFloat.one) in
  let question b e r := OShortAnswerQuestion {| body := b; example_answer := e; rubric := r |} in
  let h := [ORubric factual; ORubric none; criteria;
            question "What is the capital of Australia?" "Canberra" 0;
            question "What is the capital of Australia?" "Canberra" 1;
            question "What is the capital of Australia?" "" 0;
            question "" "Canberra" 0] in
  ShortAnswerQuestion._is_valid 3 h = (Ok tt, h)
  /\ ShortAnswerQuestion._is_valid 4 h
     = (Raise (ValidationError (Text "Rubric must have at least one criteria.")), h)
  /\ ShortAnswerQuestion._is_valid 5 h
     = (Raise (ValidationError
                 (Text "Question body and example answer cannot be empty.")), h)
  /\ ShortAnswerQuestion._is_valid 6 h
     = (Raise (ValidationError
                 (Text "Question body and example answer cannot be empty.")), h).
Proof. by vm_compute. Qed.

(* ================================================================== *)
(** * Further properties of the code *)

(** ** Objective and GradingCriteria *)

(** X1: [Objective(label)] undoes [value]: it yields a member exactly for
    the label of that member, and distinct members have distinct labels. *)
Theorem Objective_label_round_trip :
  (forall o, Objective.of_value (Objective.value o) = Some o)
  /\ (forall label o, Objective.of_value label = Some o <-> label = Objective.value o)
  /\ (forall o1 o2, Objective.value o1 = Objective.value o2 -> o1 = o2).
Proof.
  split; [apply of_value_value|]. split.
  - intros label o. split; [apply of_value_Some|]. intros ->. apply of_value_value.
  - intros o1 o2. apply (inj Objective.value).
Qed.

Lemma valid_weight_finite (w : float) :
  valid_weight w -> exists m e, w = S754_finite false m e.
Proof.
  unfold valid_weight. intros Hv.
  pose proof (validate_weight_spec w) as Hs. rewrite Hv in Hs.
  destruct Hs as [_ Hbad]. unfold bad_weight in Hbad.
  destruct w as [s|s| |s m e].
  - exfalso. apply Hbad. left. by destruct s.
  - exfalso. apply Hbad. destruct s; [by left|]. right. cbn. tauto.
  - exfalso. apply Hbad. right. cbn. tauto.
  - destruct s; [|eauto]. exfalso. apply Hbad. by left.
Qed.

(** X2: the validator returns an accepted weight unchanged, and what it
    accepts is a finite positive float: a NaN, an infinity, a zero and a
    negative number are all refused. *)
Theorem validate_weight_accepts (w v : float) :
  GradingCriteria.validate_weight w = Ok v ->
  v = w /\ exists m e, w = S754_finite false m e.
Proof.
  intros Hv. pose proof (validate_weight_spec w) as Hs. rewrite Hv in Hs.
  destruct Hs as [-> _]. split; [done|]. by apply valid_weight_finite.
Qed.

Lemma validate_weight_accepts_witness :
  PyFloat.half = PyFloat.half /\ exists m e, PyFloat.half = S754_finite false m e.
Proof. apply (validate_weight_accepts PyFloat.half PyFloat.half). reflexivity. Defined.

(** ** Rubric.add_criteria *)

Lemma rubric_wf_bound (h : heap) (R : Rubric_t) o c :
  rubric_wf h R -> criteria R !! o = Some c -> c < length h.
Proof. intros Hwf Hc. destruct (Hwf o c Hc) as (w & Hw & _). by eapply lookup_lt_Some. Qed.

(** X3: [add_criteria] with a weight the validator refuses raises a
    ValidationError and leaves the heap, hence the rubric, as it was. *)
Theorem Rubric_add_criteria_invalid_weight (h : heap) (r : addr) (o : Objective.t)
    (w : float) :
  ~ valid_weight w ->
  exists msg, Rubric.add_criteria r o w h = (Raise (ValidationError msg), h).
Proof.
  intros Hw. destruct (init_invalid o w h Hw) as [msg Hmsg]. exists msg.
  unfold Rubric.add_criteria. by erewrite bind_raise by exact Hmsg.
Qed.

Lemma Rubric_add_criteria_invalid_weight_witness :
  exists msg,
    Rubric.add_criteria 0 Objective.FACTUAL PyFloat.zero
      [ORubric {| criteria := ∅; _type := CUSTOM_RUBRIC |}]
    = (Raise (ValidationError msg), [ORubric {| criteria := ∅; _type := CUSTOM_RUBRIC |}]).
Proof.
  apply (Rubric_add_criteria_invalid_weight
           [ORubric {| criteria := ∅; _type := CUSTOM_RUBRIC |}] 0 Objective.FACTUAL
           PyFloat.zero).
  discriminate.
Defined.

Lemma add_criteria_heap_lookup_rubric (h : heap) (r : addr) (R' : Rubric_t) (c : object) :
  r < length h -> (<[r := ORubric R']> h ++ [c]) !! r = Some (ORubric R').
Proof.
  intros Hlt. rewrite lookup_app_l by (by rewrite length_insert).
  by apply list_lookup_insert_eq.
Qed.

Lemma add_criteria_heap_lookup_new (h : heap) (r : addr) (o' : object) (c : object) :
  (<[r := o']> h ++ [c]) !! length h = Some c.
Proof.
  rewrite <-(length_insert h r o') at 1. by rewrite lookup_app_length.
Qed.

Lemma add_criteria_heap_lookup_old (h : heap) (r a : addr) (o' c : object) :
  a <> r -> a < length h -> (<[r := o']> h ++ [c]) !! a = h !! a.
Proof.
  intros Hne Hlt. rewrite lookup_app_l by (by rewrite length_insert).
  by apply list_lookup_insert_ne.
Qed.

(** X4: after [add_criteria] with a valid weight the size has grown by one
    if the objective was new and is the same if it was present, the weight
    under the objective is the one given, and the tag of the rubric is what it
    was, also when that is a preset. *)
Theorem Rubric_add_criteria_effect (h : heap) (r : addr) (R : Rubric_t)
    (o : Objective.t) (w : float) :
  h !! r = Some (ORubric R) ->
  valid_weight w ->
  exists h',
    Rubric.add_criteria r o w h = (Ok tt, h')
    /\ Rubric.size r h'
       = (Ok (match criteria R !! o with
              | Some _ => size (criteria R)
              | None => S (size (criteria R))
              end), h')
    /\ weight_of h' r o = Some w
    /\ Rubric.rubric_type r h' = (Ok (_type R), h').
Proof.
  intros Hr Hw. pose proof (lookup_lt_Some _ _ _ Hr) as Hlt.
  eexists. split; [by apply add_criteria_run|].
  split; [|split].
  - erewrite size_run by (by apply add_criteria_heap_lookup_rubric). cbn.
    destruct (criteria R !! o) as [c|] eqn:Hc.
    + by rewrite map_size_insert_Some.
    + by rewrite map_size_insert_None.
  - unfold weight_of. rewrite add_criteria_heap_lookup_rubric by done. cbn.
    by rewrite lookup_insert_eq, add_criteria_heap_lookup_new.
  - by erewrite rubric_type_run by (by apply add_criteria_heap_lookup_rubric).
Qed.

Lemma Rubric_add_criteria_effect_witness :
  let R := {| criteria := ∅; _type := FACTUAL_RUBRIC |} in
  exists h',
    Rubric.add_criteria 0 Objective.CREATIVITY PyFloat.two [ORubric R] = (Ok tt, h')
    /\ Rubric.size 0 h'
       = (Ok (match criteria R !! Objective.CREATIVITY with
              | Some _ => size (criteria R)
              | None => S (size (criteria R))
              end), h')
    /\ weight_of h' 0 Objective.CREATIVITY = Some PyFloat.two
    /\ Rubric.rubric_type 0 h' = (Ok (_type R), h').
Proof.
  intros R.
  apply (Rubric_add_criteria_effect [ORubric R] 0 R Objective.CREATIVITY PyFloat.two);
    reflexivity.
Defined.

(** What [add_criteria] leaves alone: the entries of the rubric under other
    objectives, and every other rubric. *)
Lemma add_criteria_frame (h : heap) (r : addr) (R : Rubric_t) (o : Objective.t)
    (w : float) (r' : addr) (R' : Rubric_t) (o' : Objective.t) :
  h !! r = Some (ORubric R) ->
  valid_weight w ->
  h !! r' = Some (ORubric R') ->
  rubric_wf h R' ->
  (r', o') <> (r, o) ->
  let h' := <[r := ORubric {| criteria := <[o := length h]> (criteria R);
                              _type := _type R |}]> h ++ [criteria_object (o, w)] in
  criteria_ref h' r' o' = criteria_ref h r' o'
  /\ weight_of h' r' o' = weight_of h r' o'.
Proof.
  intros Hr Hw Hr' Hwf Hne h'.
  pose proof (lookup_lt_Some _ _ _ Hr) as Hlt.
  pose proof (lookup_lt_Some _ _ _ Hr') as Hlt'.
  assert (Hcrit : exists R'', h' !! r' = Some (ORubric R'')
                              /\ criteria R'' !! o' = criteria R' !! o').
  { destruct (decide (r' = r)) as [->|Hrr].
    - eexists. split; [by apply add_criteria_heap_lookup_rubric|]. cbn.
      rewrite lookup_insert_ne by congruence. congruence.
    - exists R'. split; [|done]. unfold h'.
      by rewrite add_criteria_heap_lookup_old. }
  destruct Hcrit as (R'' & Hr'' & Hsame).
  unfold criteria_ref, weight_of. rewrite Hr'', Hr', Hsame. split; [done|].
  destruct (criteria R' !! o') as [c|] eqn:Hc; [|done].
  destruct (Hwf o' c Hc) as (w' & Hw' & _).
  pose proof (lookup_lt_Some _ _ _ Hw') as Hc_lt.
  unfold h'. rewrite add_criteria_heap_lookup_old; [done| |done].
  intros ->. unfold criteria_object in Hw'. congruence.
Qed.



(** ** The invariant of the heap *)

Lemma rubric_wf_keeps (h h' : heap) (R : Rubric_t) :
  keeps_criteria h h' -> rubric_wf h R -> rubric_wf h' R.
Proof.
  intros Hk Hwf o c Hc. destruct (Hwf o c Hc) as (w & Hw & Hv).
  exists w. split; [|done]. by apply Hk.
Qed.

Lemma keeps_criteria_app (h l : heap) : keeps_criteria h (h ++ l).
Proof. intros c g Hc. by apply lookup_app_l_Some. Qed.

Lemma keeps_criteria_insert (h : heap) (a : addr) (o : object) :
  (forall g, h !! a <> Some (OGradingCriteria g)) -> keeps_criteria h (<[a := o]> h).
Proof.
  intros Ha c g Hc. rewrite list_lookup_insert_ne; [done|]. intros ->. by eapply Ha.
Qed.

Lemma heap_wf_nil : heap_wf [].
Proof. repeat split; intros a ? Ha; by rewrite lookup_nil in Ha. Qed.

Lemma heap_wf_alloc (h : heap) (x : object) :
  heap_wf h ->
  match x with
  | OGradingCriteria g => valid_weight (weight g)
  | ORubric R => rubric_wf h R
  | OShortAnswerQuestion Q => exists R, h !! rubric Q = Some (ORubric R)
  end ->
  heap_wf (h ++ [x]).
Proof.
  intros (Hr & Hq & Hc) Hx. repeat split.
  - intros a R Ha. apply (rubric_wf_keeps h); [apply keeps_criteria_app|].
    apply lookup_app_Some in Ha as [Ha|[_ Ha]]; [by eapply Hr|].
    apply list_lookup_singleton_Some in Ha as [_ ->]. done.
  - intros a Q Ha.
    assert (exists R, h !! rubric Q = Some (ORubric R)) as [R HR].
    { apply lookup_app_Some in Ha as [Ha|[_ Ha]]; [by eapply Hq|].
      apply list_lookup_singleton_Some in Ha as [_ ->]. done. }
    exists R. by apply lookup_app_l_Some.
  - intros a g Ha.
    apply lookup_app_Some in Ha as [Ha|[_ Ha]]; [by eapply Hc|].
    apply list_lookup_singleton_Some in Ha as [_ ->]. done.
Qed.

(** Assigning to an object that is no criteria, when the new value is a
    rubric that is well formed or a question that holds a rubric. *)
Lemma heap_wf_store (h : heap) (a : addr) (x : object) :
  heap_wf h ->
  (forall g, h !! a <> Some (OGradingCriteria g)) ->
  match x with
  | OGradingCriteria g => False
  | ORubric R => rubric_wf h R /\ exists R0, h !! a = Some (ORubric R0)
  | OShortAnswerQuestion Q =>
      (exists R, h !! rubric Q = Some (ORubric R))
      /\ exists Q0, h !! a = Some (OShortAnswerQuestion Q0)
  end ->
  heap_wf (<[a := x]> h).
Proof.
  intros (Hr & Hq & Hc) Ha Hx.
  assert (Hk : keeps_criteria h (<[a := x]> h)) by by apply keeps_criteria_insert.
  assert (Hrub : forall b R, h !! b = Some (ORubric R) ->
                   exists R', <[a := x]> h !! b = Some (ORubric R')).
  { intros b R Hb. destruct (decide (a = b)) as [->|Hne].
    - destruct x as [g|R'|Q]; [done| |].
      + exists R'. apply list_lookup_insert_eq. by eapply lookup_lt_Some.
      + destruct Hx as (_ & Q0 & HQ0). congruence.
    - exists R. by rewrite list_lookup_insert_ne. }
  repeat split.
  - intros b R Hb. apply (rubric_wf_keeps h); [done|].
    apply list_lookup_insert_Some in Hb as [(_ & -> & _)|[_ Hb]].
    + by destruct Hx.
    + by eapply Hr.
  - intros b Q Hb.
    assert (exists R, h !! rubric Q = Some (ORubric R)) as [R HR].
    { apply list_lookup_insert_Some in Hb as [(_ & -> & _)|[_ Hb]].
      - by destruct Hx.
      - by eapply Hq. }
    by eapply Hrub.
  - intros b g Hb.
    apply list_lookup_insert_Some in Hb as [(_ & -> & _)|[_ Hb]]; [done|].
    by eapply Hc.
Qed.

Lemma heap_wf_alloc_list (h : heap) (ds : list (Objective.t * float)) :
  heap_wf h -> Forall (fun p => valid_weight p.2) ds ->
  heap_wf (h ++ (criteria_object <$> ds)).
Proof.
  revert h. induction ds as [|p ds IH]; intros h Hwf Hv; cbn.
  - by rewrite app_nil_r.
  - apply Forall_cons in Hv as [Hp Hv].
    rewrite (app_assoc h [_] _ : h ++ criteria_object p :: _ = _).
    apply IH; [|done]. by apply heap_wf_alloc.
Qed.

Lemma built_rubric_wf (h : heap) (ds : list (Objective.t * float)) (ty : RubricType_t) :
  Forall (fun p => valid_weight p.2) ds ->
  rubric_wf (h ++ (criteria_object <$> ds))
    {| criteria := list_to_map (zip ds.*1 (seq (length h) (length ds))); _type := ty |}.
Proof.
  intros Hv o c Hc. cbn in Hc.
  apply elem_of_list_to_map_2, list_elem_of_lookup in Hc as [i Hi].
  apply lookup_zip_Some in Hi as [Ho Hseq].
  apply lookup_seq in Hseq as [-> Hlt].
  rewrite list_lookup_fmap in Ho.
  destruct (ds !! i) as [[o' w]|] eqn:Hds; [|done]. injection Ho as ->.
  exists w. split.
  - by rewrite lookup_app_plus, list_lookup_fmap, Hds.
  - by apply (proj1 (Forall_forall _ _) Hv (o, w)), list_elem_of_lookup_2 with i.
Qed.

Lemma init_wf (o : Objective.t) (w : float) (h : heap) :
  heap_wf h ->
  match GradingCriteria.__init__ o w h with
  | (Ok c, h') => c = length h /\ h' = h ++ [criteria_object (o, w)] /\ valid_weight w
                  /\ heap_wf h'
  | (Raise _, h') => h' = h
  end.
Proof.
  intros Hwf. destruct (valid_weight_dec w) as [Hw|Hw].
  - rewrite init_valid by done. do 3 (split; [done|]). by apply heap_wf_alloc.
  - by destruct (init_invalid o w h Hw) as [msg ->].
Qed.

Lemma from_dict_item_wf (acc : gmap Objective.t addr) (it : string * float) (h : heap) :
  heap_wf h -> rubric_wf h (as_rubric acc) ->
  match from_dict_item acc it h with
  | (Ok acc', h') => heap_wf h' /\ rubric_wf h' (as_rubric acc')
  | (Raise _, h') => heap_wf h'
  end.
Proof.
  intros Hwf Hacc. destruct it as [label w].
  destruct (Objective.of_value label) as [o|] eqn:Ho.
  - destruct (valid_weight_dec w) as [Hw|Hw].
    + rewrite (from_dict_item_ok acc label o w h Ho Hw). split.
      * by apply heap_wf_alloc.
      * intros o' c Hc. cbn in Hc.
        apply lookup_insert_Some in Hc as [[<- <-]|[_ Hc]].
        -- exists w. by rewrite lookup_app_length.
        -- destruct (Hacc o' c Hc) as (w' & Hw' & Hv'). exists w'.
           split; [|done]. by apply lookup_app_l_Some.
    + by destruct (from_dict_item_invalid acc label o w h Ho Hw) as [msg ->].
  - by rewrite from_dict_item_unknown.
Qed.

Lemma from_dict_fold_wf (items : list (string * float)) (acc : gmap Objective.t addr)
    (h : heap) :
  heap_wf h -> rubric_wf h (as_rubric acc) ->
  match for_fold from_dict_item acc items h with
  | (Ok acc', h') => heap_wf h' /\ rubric_wf h' (as_rubric acc')
  | (Raise _, h') => heap_wf h'
  end.
Proof.
  revert acc h. induction items as [|it items IH]; intros acc h Hwf Hacc; [done|].
  cbn [for_fold]. unfold mbind, M_bind.
  pose proof (from_dict_item_wf acc it h Hwf Hacc) as Hit.
  destruct (from_dict_item acc it h) as [[acc'|e] h']; [|done].
  destruct Hit as [Hwf' Hacc']. by apply IH.
Qed.

Lemma from_dict_wf (p : payload) (h : heap) :
  heap_wf h -> heap_wf (Rubric.from_dict p h).2.
Proof.
  intros Hwf. rewrite from_dict_unfold. unfold try_except.
  destruct p as [items| | | |]; try done.
  erewrite bind_ok by reflexivity.
  unfold mbind, M_bind.
  pose proof (from_dict_fold_wf items ∅ h Hwf) as Hfold.
  destruct (for_fold from_dict_item ∅ items h) as [[acc|e] h'].
  - destruct Hfold as [Hwf' Hacc]; [by intros o c Hc|].
    cbn. by apply heap_wf_alloc.
  - assert (heap_wf h') by (apply Hfold; by intros o c Hc).
    by destruct (is_ValueError e), (is_AttributeError e).
Qed.

Lemma from_rubric_type_wf (rt : RubricType_t) (h : heap) :
  heap_wf h -> heap_wf (Rubric.from_rubric_type rt h).2.
Proof.
  intros Hwf. rewrite from_rubric_type_run. cbn [snd].
  destruct (default_criteria_facts rt) as (Hv & _ & _).
  rewrite app_assoc. apply heap_wf_alloc.
  - by apply heap_wf_alloc_list.
  - by apply built_rubric_wf.
Qed.

Lemma add_criteria_wf (r : addr) (o : Objective.t) (w : float) (h : heap) :
  heap_wf h -> heap_wf (Rubric.add_criteria r o w h).2.
Proof.
  intros Hwf. destruct (valid_weight_dec w) as [Hw|Hw].
  2:{ destruct (init_invalid o w h Hw) as [msg Hmsg].
      unfold Rubric.add_criteria. by erewrite bind_raise by exact Hmsg. }
  assert (Hwf1 : heap_wf (h ++ [criteria_object (o, w)])) by by apply heap_wf_alloc.
  destruct (h !! r) as [[g|R|Q]|] eqn:Hr.
  2:{ rewrite (add_criteria_run r R o w h Hr Hw). cbn [snd].
      rewrite <-insert_app_l by (by eapply lookup_lt_Some).
      apply heap_wf_store; [done| |].
      - intros g. rewrite lookup_app_l by (by eapply lookup_lt_Some). congruence.
      - split.
        + intros o' c Hc. cbn in Hc.
          apply lookup_insert_Some in Hc as [[<- <-]|[_ Hc]].
          * exists w. by rewrite lookup_app_length.
          * destruct Hwf as (Hrub & _).
            destruct (Hrub r R Hr o' c Hc) as (w' & Hw' & Hv'). exists w'.
            split; [|done]. by apply lookup_app_l_Some.
        + exists R. by apply lookup_app_l_Some. }
  all: unfold Rubric.add_criteria;
    erewrite bind_ok by (by apply init_valid);
    unfold mbind, M_bind, get_rubric.
  - rewrite (lookup_app_l_Some _ _ _ _ Hr). done.
  - rewrite (lookup_app_l_Some _ _ _ _ Hr). done.
  - apply lookup_ge_None in Hr.
    destruct ((h ++ [criteria_object (o, w)]) !! r) as [[g|R|Q]|] eqn:Hr'; try done.
    apply lookup_app_Some in Hr' as [Hr'|[_ Hr']].
    + apply lookup_lt_Some in Hr'. lia.
    + apply list_lookup_singleton_Some in Hr' as [_ [=]].
Qed.

(** X6: the methods of [Rubric] that allocate or update keep the heap well
    formed, whatever they are given and whether they return or raise: every
    entry of every rubric refers to a criteria object of its own objective
    with a valid weight. *)
Theorem Rubric_methods_keep_heap_wf (h : heap) :
  heap_wf h ->
  heap_wf (Rubric.empty h).2
  /\ (forall rt, heap_wf (Rubric.from_rubric_type rt h).2)
  /\ (forall p, heap_wf (Rubric.from_dict p h).2)
  /\ (forall r o w, heap_wf (Rubric.add_criteria r o w h).2).
Proof.
  intros Hwf. split; [|split; [|split]].
  - apply heap_wf_alloc; [done|]. by intros o c Hc.
  - intros rt. by apply from_rubric_type_wf.
  - intros p. by apply from_dict_wf.
  - intros r o w. by apply add_criteria_wf.
Qed.

Lemma Rubric_methods_keep_heap_wf_witness :
  heap_wf (Rubric.empty []).2
  /\ (forall rt, heap_wf (Rubric.from_rubric_type rt []).2)
  /\ (forall p, heap_wf (Rubric.from_dict p []).2)
  /\ (forall r o w, heap_wf (Rubric.add_criteria r o w []).2).
Proof. apply (Rubric_methods_keep_heap_wf []). apply heap_wf_nil. Defined.

(** ** Rubric.serialize and Rubric.from_dict, in general *)

Lemma rubric_weights_lookup (h : heap) (r : addr) (R : Rubric_t) (o : Objective.t) :
  h !! r = Some (ORubric R) -> rubric_wf h R ->
  weight_of h r o = rubric_weights h R !! o.
Proof.
  intros Hr Hwf. unfold weight_of, rubric_weights. rewrite Hr, lookup_fmap.
  destruct (criteria R !! o) as [c|] eqn:Hc; [|done]. cbn.
  destruct (Hwf o c Hc) as (w & Hw & _). unfold weight_at. by rewrite Hw.
Qed.

Lemma rubric_weights_valid (h : heap) (R : Rubric_t) :
  rubric_wf h R -> map_Forall (fun _ w => valid_weight w) (rubric_weights h R).
Proof.
  intros Hwf o w Hw. unfold rubric_weights in Hw. rewrite lookup_fmap in Hw.
  destruct (criteria R !! o) as [c|] eqn:Hc; [|done]. cbn in Hw.
  destruct (Hwf o c Hc) as (w' & Hw' & Hv). unfold weight_at in Hw.
  rewrite Hw' in Hw. cbn in Hw. congruence.
Qed.

Lemma map_size_kmap_value {A} (W : gmap Objective.t A) :
  size (kmap Objective.value W : gmap string A) = size W.
Proof.
  rewrite <-!length_map_to_list, map_to_list_kmap by apply _.
  by rewrite length_fmap.
Qed.

Lemma serialize_wf (h : heap) (r : addr) (R : Rubric_t) :
  h !! r = Some (ORubric R) -> rubric_wf h R ->
  Rubric.serialize r h = (Ok (kmap Objective.value (rubric_weights h R)), h).
Proof.
  intros Hr Hwf. apply (serialize_spec h r R); [done| |].
  - intros o. by apply rubric_weights_lookup.
  - intros o c Hc. unfold rubric_weights. rewrite lookup_fmap, Hc. by eexists.
Qed.

(** X7: a well formed rubric always serializes, without touching the heap:
    the result holds, under the label of each objective of the rubric, its
    weight, holds nothing under any other key, and has the size of the
    rubric. *)
Theorem Rubric_serialize_content (h : heap) (r : addr) (R : Rubric_t) :
  h !! r = Some (ORubric R) ->
  rubric_wf h R ->
  exists s,
    Rubric.serialize r h = (Ok s, h)
    /\ (forall o, s !! Objective.value o = weight_of h r o)
    /\ (forall k, Objective.of_value k = None -> s !! k = None)
    /\ size s = size (criteria R).
Proof.
  intros Hr Hwf. exists (kmap Objective.value (rubric_weights h R)).
  split; [by apply serialize_wf|]. split; [|split].
  - intros o. rewrite lookup_kmap by apply _. symmetry.
    by apply rubric_weights_lookup.
  - intros k Hk. apply lookup_kmap_None; [apply _|]. intros o ->.
    by rewrite of_value_value in Hk.
  - rewrite map_size_kmap_value. unfold rubric_weights. apply map_size_fmap.
Qed.

Lemma Rubric_serialize_content_witness :
  let R := {| criteria := {[ Objective.CLARITY := 1 ]}; _type := CUSTOM_RUBRIC |} in
  let h := [ORubric R; criteria_object (Objective.CLARITY, PyFloat.half)] in
  exists s,
    Rubric.serialize 0 h = (Ok s, h)
    /\ (forall o, s !! Objective.value o = weight_of h 0 o)
    /\ (forall k, Objective.of_value k = None -> s !! k = None)
    /\ size s = size (criteria R).
Proof.
  intros R h. apply (Rubric_serialize_content h 0 R); [reflexivity|].
  intros o c Hc. unfold R in Hc. cbn [criteria] in Hc.
  apply lookup_singleton_Some in Hc as [<- <-].
  exists PyFloat.half. split; reflexivity.
Defined.

(** X8: every well formed rubric, not only one made from a preset, survives
    the round trip: its serialization is read back by [from_dict] into a new
    rubric with the same size and the same weight under every objective,
    tagged Custom; the first rubric is left as it was. *)
Theorem Rubric_round_trip_any (h : heap) (r : addr) (R : Rubric_t) :
  h !! r = Some (ORubric R) ->
  rubric_wf h R ->
  exists s r2 h2,
    Rubric.serialize r h = (Ok s, h)
    /\ Rubric.from_dict (PayloadDict (map_to_list s)) h = (Ok r2, h2)
    /\ Rubric.size r2 h2 = (Ok (size (criteria R)), h2)
    /\ (forall o, weight_of h2 r2 o = weight_of h r o)
    /\ (forall o, weight_of h2 r o = weight_of h r o)
    /\ Rubric.rubric_type r2 h2 = (Ok CUSTOM_RUBRIC, h2).
Proof.
  intros Hr Hwf. set (W := rubric_weights h R).
  destruct (from_dict_of_map W h (rubric_weights_valid h R Hwf))
    as (ds & Hrun & Hnd & Hlen & HW).
  eexists _, _, _. split; [by apply serialize_wf|]. split; [exact Hrun|].
  pose proof (built_rubric_lookup h ds CUSTOM_RUBRIC []) as Hr2.
  split; [|split; [|split]].
  - erewrite size_run by exact Hr2. cbn. rewrite built_rubric_size by done.
    rewrite Hlen. unfold W, rubric_weights. by rewrite map_size_fmap.
  - intros o. rewrite weight_of_built by done. rewrite HW.
    symmetry. by apply rubric_weights_lookup.
  - intros o.
    rewrite (rubric_weights_lookup h r R o Hr Hwf).
    rewrite (rubric_weights_lookup _ r R o).
    + unfold rubric_weights. rewrite !lookup_fmap.
      destruct (criteria R !! o) as [c|] eqn:Hc; [|done]. cbn. f_equal.
      destruct (Hwf o c Hc) as (w & Hw & _). unfold weight_at.
      by rewrite (lookup_app_l_Some _ _ _ _ Hw), Hw.
    + by apply lookup_app_l_Some.
    + eapply rubric_wf_keeps; [apply keeps_criteria_app|done].
  - by erewrite rubric_type_run by exact Hr2.
Qed.

Lemma Rubric_round_trip_any_witness :
  let R := {| criteria := {[ Objective.CLARITY := 1 ]}; _type := FACTUAL_RUBRIC |} in
  let h := [ORubric R; criteria_object (Objective.CLARITY, PyFloat.half)] in
  exists s r2 h2,
    Rubric.serialize 0 h = (Ok s, h)
    /\ Rubric.from_dict (PayloadDict (map_to_list s)) h = (Ok r2, h2)
    /\ Rubric.size r2 h2 = (Ok (size (criteria R)), h2)
    /\ (forall o, weight_of h2 r2 o = weight_of h 0 o)
    /\ (forall o, weight_of h2 0 o = weight_of h 0 o)
    /\ Rubric.rubric_type r2 h2 = (Ok CUSTOM_RUBRIC, h2).
Proof.
  intros R h. apply (Rubric_round_trip_any h 0 R); [reflexivity|].
  intros o c Hc. unfold R in Hc. cbn [criteria] in Hc.
  apply lookup_singleton_Some in Hc as [<- <-].
  exists PyFloat.half. split; reflexivity.
Defined.

Lemma wire_item_prod_map (ds : list (Objective.t * float)) :
  wire_item <$> ds = prod_map Objective.value id <$> ds.
Proof. apply list_fmap_ext. by intros i [o w] _. Qed.

Lemma built_rubric_wf_rest (h : heap) (ds : list (Objective.t * float))
    (ty : RubricType_t) (rest : heap) :
  Forall (fun p => valid_weight p.2) ds ->
  rubric_wf (h ++ (criteria_object <$> ds) ++ rest)
    {| criteria := list_to_map (zip ds.*1 (seq (length h) (length ds))); _type := ty |}.
Proof.
  intros Hv. rewrite app_assoc.
  eapply rubric_wf_keeps; [apply keeps_criteria_app|]. by apply built_rubric_wf.
Qed.

Lemma rubric_weights_built (h : heap) (ds : list (Objective.t * float))
    (ty : RubricType_t) (rest : heap) :
  NoDup ds.*1 ->
  Forall (fun p => valid_weight p.2) ds ->
  rubric_weights (h ++ (criteria_object <$> ds) ++ built_rubric (length h) ds ty :: rest)
    {| criteria := list_to_map (zip ds.*1 (seq (length h) (length ds))); _type := ty |}
  = list_to_map ds.
Proof.
  intros Hnd Hv. apply map_eq. intros o.
  rewrite <-(weight_of_built h ds ty rest o Hnd).
  symmetry. apply rubric_weights_lookup; [apply built_rubric_lookup|].
  by apply built_rubric_wf_rest.
Qed.

(** X9: a dict with known labels and valid weights that [from_dict] has
    read serializes back to the same dict, and the rubric has one criteria per
    item. *)
Theorem Rubric_from_dict_then_serialize (items : list (string * float)) (h : heap) :
  NoDup items.*1 ->
  Forall (fun it => is_Some (Objective.of_value it.1) /\ valid_weight it.2) items ->
  exists r h',
    Rubric.from_dict (PayloadDict items) h = (Ok r, h')
    /\ Rubric.serialize r h' = (Ok (list_to_map items), h')
    /\ Rubric.size r h' = (Ok (length items), h').
Proof.
  intros Hnd Hall.
  destruct (known_items items) as [ds ->].
  { eapply Forall_impl; [exact Hall|]. by intros it [? _]. }
  assert (Hv : Forall (fun p => valid_weight p.2) ds).
  { apply Forall_fmap in Hall. eapply Forall_impl; [exact Hall|].
    by intros [o w] [_ ?]. }
  assert (Hnd' : NoDup ds.*1).
  { apply (NoDup_fmap_1 Objective.value). by rewrite <-wire_item_fst. }
  eexists _, _. split.
  { rewrite from_dict_run by done. by rewrite foldl_built_rubric. }
  pose proof (built_rubric_lookup h ds CUSTOM_RUBRIC []) as Hr.
  split.
  - erewrite serialize_wf; [|exact Hr|by apply built_rubric_wf_rest].
    rewrite rubric_weights_built by done.
    rewrite wire_item_prod_map. by rewrite kmap_list_to_map by apply _.
  - erewrite size_run by exact Hr. cbn. rewrite built_rubric_size by done.
    by rewrite length_fmap.
Qed.

Lemma Rubric_from_dict_then_serialize_witness :
  exists r h',
    Rubric.from_dict
      (PayloadDict [("creativity", PyFloat.half); ("self reflection", PyFloat.two)]) []
    = (Ok r, h')
    /\ Rubric.serialize r h'
       = (Ok (list_to_map [("creativity", PyFloat.half); ("self reflection", PyFloat.two)]),
          h')
    /\ Rubric.size r h' = (Ok 2, h').
Proof.
  apply (Rubric_from_dict_then_serialize
           [("creativity", PyFloat.half); ("self reflection", PyFloat.two)] []).
  - apply (bool_decide_unpack _). by vm_compute.
  - repeat constructor; by eexists.
Defined.

Lemma for_fold_app {A B} (f : B -> A -> M B) (acc : B) (l1 l2 : list A) (h : heap) :
  for_fold f acc (l1 ++ l2) h
  = (acc' ← for_fold f acc l1; for_fold f acc' l2) h.
Proof.
  revert acc h. induction l1 as [|x l1 IH]; intros acc h; [done|].
  cbn [app for_fold]. rewrite bind_assoc_run. unfold mbind, M_bind.
  destruct (f acc x h) as [[acc'|e] h']; [|done]. apply IH.
Qed.

Lemma init_reason (o : Objective.t) (w : float) (reason : string) (h : heap) :
  GradingCriteria.validate_weight w = Raise (ValueError reason) ->
  GradingCriteria.__init__ o w h = (Raise (ValidationError (PydanticJson reason)), h).
Proof.
  intros Hv. unfold GradingCriteria.__init__, GradingCriteria.BaseModel__init__,
    try_except. by rewrite Hv.
Qed.

(** X10: [from_dict] reports the first item it cannot take, in the order
    of the dict: after items with known labels and valid weights, an unknown
    label gives "Invalid payload." and a known label with a refused weight
    gives pydantic's report of the validator's message, whatever follows.  No
    rubric is made; the criteria of the items before stay in the heap. *)
Theorem Rubric_from_dict_first_error (good : list (Objective.t * float))
    (label : string) (w : float) (rest : list (string * float)) (h : heap) :
  Forall (fun p => valid_weight p.2) good ->
  let items := (wire_item <$> good) ++ (label, w) :: rest in
  (Objective.of_value label = None ->
   Rubric.from_dict (PayloadDict items) h
   = (Raise (ValidationError (Text "Invalid payload.")),
      h ++ (criteria_object <$> good)))
  /\ (forall o reason,
         Objective.of_value label = Some o ->
         GradingCriteria.validate_weight w = Raise (ValueError reason) ->
         Rubric.from_dict (PayloadDict items) h
         = (Raise (ValidationError (PydanticJson reason)),
            h ++ (criteria_object <$> good))).
Proof.
  intros Hv items.
  assert (Hfold : forall e,
    from_dict_item
      (foldl (fun acc p => <[p.1 := p.2]> acc) ∅
         (zip good.*1 (seq (length h) (length good))))
      (label, w) (h ++ (criteria_object <$> good))
    = (Raise e, h ++ (criteria_object <$> good)) ->
    for_fold from_dict_item ∅ items h = (Raise e, h ++ (criteria_object <$> good))).
  { intros e He. unfold items. rewrite for_fold_app.
    erewrite bind_ok by (by apply from_dict_fold_ok).
    cbn [for_fold]. by erewrite bind_raise by exact He. }
  split.
  - intros Ho. rewrite from_dict_unfold. unfold try_except.
    erewrite bind_ok by reflexivity.
    by erewrite bind_raise by (apply Hfold; by apply from_dict_item_unknown).
  - intros o reason Ho Hreason. rewrite from_dict_unfold. unfold try_except.
    erewrite bind_ok by reflexivity.
    assert (Hitem : from_dict_item
              (foldl (fun acc p => <[p.1 := p.2]> acc) ∅
                 (zip good.*1 (seq (length h) (length good))))
              (label, w) (h ++ (criteria_object <$> good))
            = (Raise (ValidationError (PydanticJson reason)),
               h ++ (criteria_object <$> good))).
    { unfold from_dict_item, Objective_call. rewrite Ho.
      do 2 (erewrite bind_ok by reflexivity).
      by erewrite bind_raise by (by apply init_reason). }
    by erewrite bind_raise by (by apply Hfold).
Qed.

Lemma Rubric_from_dict_first_error_witness :
  let items := (wire_item <$> [(Objective.CLARITY, PyFloat.one)])
               ++ ("creativity", PyFloat.zero) :: [("spelling", PyFloat.one)] in
  (Objective.of_value "creativity" = None ->
   Rubric.from_dict (PayloadDict items) []
   = (Raise (ValidationError (Text "Invalid payload.")),
      [] ++ (criteria_object <$> [(Objective.CLARITY, PyFloat.one)])))
  /\ (forall o reason,
         Objective.of_value "creativity" = Some o ->
         GradingCriteria.validate_weight PyFloat.zero = Raise (ValueError reason) ->
         Rubric.from_dict (PayloadDict items) []
         = (Raise (ValidationError (PydanticJson reason)),
            [] ++ (criteria_object <$> [(Objective.CLARITY, PyFloat.one)]))).
Proof.
  apply (Rubric_from_dict_first_error [(Objective.CLARITY, PyFloat.one)]
           "creativity" PyFloat.zero [("spelling", PyFloat.one)] []).
  repeat constructor.
Defined.

(** ** The two versions of [from_rubric_type], and rubrics of one preset *)

Lemma question_fold_ok (ds : list (Objective.t * float)) (acc : gmap Objective.t addr)
    (h : heap) :
  Forall (fun p => valid_weight p.2) ds ->
  for_fold (fun (acc : gmap Objective.t addr) '(objective, weight) =>
              c ← GradingCriteria.__init__ objective weight;
              mret (<[objective := c]> acc))
    acc ds h
  = (Ok (foldl (fun acc p => <[p.1 := p.2]> acc) acc
           (zip ds.*1 (seq (length h) (length ds)))),
     h ++ (criteria_object <$> ds)).
Proof.
  revert acc h. induction ds as [|[o w] ds IH]; intros acc h Hv; simpl.
  - by rewrite app_nil_r.
  - apply Forall_cons in Hv as [Hw Hv].
    rewrite bind_assoc_run. erewrite bind_ok by (by apply init_valid).
    erewrite bind_ok by reflexivity.
    rewrite IH by done.
    by rewrite length_app, Nat.add_1_r, <-app_assoc.
Qed.

(** X11: [Rubric.from_rubric_type] of question.py, which fills the dict
    while it creates the criteria from [DEFAULT_RUBRIC_CRITERIA], and the one
    of rubric.py, which creates the criteria first, give the same rubric and
    the same heap for every rubric type. *)
Theorem question_from_rubric_type_agrees (rt : RubricType_t) (h : heap) :
  question.Rubric_from_rubric_type rt h = Rubric.from_rubric_type rt h.
Proof.
  destruct (default_criteria_facts rt) as (Hv & Hnd & _).
  rewrite from_rubric_type_run.
  unfold question.Rubric_from_rubric_type, question.get_default_criteria,
    question.DEFAULT_RUBRIC_CRITERIA.
  erewrite bind_ok by (by apply question_fold_ok).
  rewrite foldl_insert_list_to_map by (by rewrite zip_seq_fst).
  rewrite (right_id_L ∅ (∪)).
  unfold Rubric.__init__, alloc, built_rubric. cbn.
  by rewrite length_app, length_fmap, <-app_assoc.
Qed.

(** X12: two rubrics made from presets share nothing: they hold different
    criteria objects under every objective, and a criteria added to the first
    leaves every weight and the size of the second as they were. *)
Theorem Rubric_presets_independent (rt1 rt2 : RubricType_t) (o : Objective.t)
    (w : float) (h : heap) :
  valid_weight w ->
  exists r1 h1 r2 h2 h3,
    Rubric.from_rubric_type rt1 h = (Ok r1, h1)
    /\ Rubric.from_rubric_type rt2 h1 = (Ok r2, h2)
    /\ Rubric.add_criteria r1 o w h2 = (Ok tt, h3)
    /\ r1 <> r2
    /\ (forall o' c1 c2,
           criteria_ref h2 r1 o' = Some c1 -> criteria_ref h2 r2 o' = Some c2 -> c1 <> c2)
    /\ (forall o', weight_of h3 r2 o' = weight_of h2 r2 o')
    /\ (exists n, Rubric.size r2 h2 = (Ok n, h2) /\ Rubric.size r2 h3 = (Ok n, h3)).
Proof.
  intros Hw.
  destruct (default_criteria_facts rt1) as (Hv1 & Hnd1 & _).
  destruct (default_criteria_facts rt2) as (Hv2 & Hnd2 & _).
  set (ds1 := RubricType._default_criteria rt1) in *.
  set (ds2 := RubricType._default_criteria rt2) in *.
  set (h1 := h ++ (criteria_object <$> ds1) ++ [built_rubric (length h) ds1 rt1]).
  set (h2 := h1 ++ (criteria_object <$> ds2) ++ [built_rubric (length h1) ds2 rt2]).
  set (R1 := {| criteria := list_to_map (zip ds1.*1 (seq (length h) (length ds1)));
                _type := rt1 |}).
  set (R2 := {| criteria := list_to_map (zip ds2.*1 (seq (length h1) (length ds2)));
                _type := rt2 |}).
  assert (Hlen1 : length h1 = length h + length ds1 + 1).
  { unfold h1. rewrite !length_app, length_fmap. cbn. lia. }
  assert (Hr1 : h2 !! (length h + length ds1) = Some (ORubric R1)).
  { unfold h2. apply lookup_app_l_Some. apply (built_rubric_lookup h ds1 rt1 []). }
  assert (Hr2 : h2 !! (length h1 + length ds2) = Some (ORubric R2)).
  { apply (built_rubric_lookup h1 ds2 rt2 []). }
  assert (Hwf2 : rubric_wf h2 R2) by by apply built_rubric_wf_rest.
  assert (Hlt2 : length h1 + length ds2 < length h2).
  { by eapply lookup_lt_Some. }
  exists (length h + length ds1), h1, (length h1 + length ds2), h2.
  eexists. split; [apply from_rubric_type_run|]. split; [apply from_rubric_type_run|].
  split; [by apply (add_criteria_run _ R1)|].
  split; [lia|]. split; [|split].
  - intros o' c1 c2 Hc1 Hc2. unfold criteria_ref in Hc1, Hc2.
    rewrite Hr1 in Hc1. rewrite Hr2 in Hc2. cbn in Hc1, Hc2.
    apply elem_of_list_to_map_2, elem_of_zip_r, list_elem_of_lookup in Hc1 as [i Hi].
    apply elem_of_list_to_map_2, elem_of_zip_r, list_elem_of_lookup in Hc2 as [j Hj].
    apply lookup_seq in Hi as [-> Hi]. apply lookup_seq in Hj as [-> Hj]. lia.
  - intros o'. apply (add_criteria_frame h2 _ R1 o w _ R2 o'); try done.
    intros [=]. lia.
  - exists (size (criteria R2)). split; [by apply size_run|].
    apply size_run. rewrite add_criteria_heap_lookup_old; [done|lia|done].
Qed.

Lemma Rubric_presets_independent_witness :
  exists r1 h1 r2 h2 h3,
    Rubric.from_rubric_type FACTUAL_RUBRIC [] = (Ok r1, h1)
    /\ Rubric.from_rubric_type FACTUAL_RUBRIC h1 = (Ok r2, h2)
    /\ Rubric.add_criteria r1 Objective.FACTUAL PyFloat.two h2 = (Ok tt, h3)
    /\ r1 <> r2
    /\ (forall o' c1 c2,
           criteria_ref h2 r1 o' = Some c1 -> criteria_ref h2 r2 o' = Some c2 -> c1 <> c2)
    /\ (forall o', weight_of h3 r2 o' = weight_of h2 r2 o')
    /\ (exists n, Rubric.size r2 h2 = (Ok n, h2) /\ Rubric.size r2 h3 = (Ok n, h3)).
Proof.
  apply (Rubric_presets_independent FACTUAL_RUBRIC FACTUAL_RUBRIC Objective.FACTUAL
           PyFloat.two []).
  reflexivity.
Defined.

(** ** ShortAnswerQuestion *)

Lemma question_add_criteria_run (h : heap) (q : addr) (Q : ShortAnswerQuestion_t)
    (o : Objective.t) (w : float) :
  h !! q = Some (OShortAnswerQuestion Q) ->
  ShortAnswerQuestion.add_criteria q o w h = Rubric.add_criteria (rubric Q) o w h.
Proof.
  intros Hq. unfold ShortAnswerQuestion.add_criteria.
  unfold mbind at 1, M_bind at 1, get_question. by rewrite Hq.
Qed.

Lemma question_add_criteria_wf (q : addr) (o : Objective.t) (w : float) (h : heap) :
  heap_wf h -> heap_wf (ShortAnswerQuestion.add_criteria q o w h).2.
Proof.
  intros Hwf. destruct (h !! q) as [[g|R|Q]|] eqn:Hq.
  3:{ rewrite (question_add_criteria_run h q Q o w Hq). by apply add_criteria_wf. }
  all: unfold ShortAnswerQuestion.add_criteria, mbind, M_bind, get_question;
    by rewrite Hq.
Qed.

Lemma set_rubric_run (h : heap) (q r : addr) (Q : ShortAnswerQuestion_t) (R : Rubric_t) :
  h !! q = Some (OShortAnswerQuestion Q) ->
  h !! r = Some (ORubric R) ->
  ShortAnswerQuestion.set_rubric q r h
  = (Ok tt,
     <[q := OShortAnswerQuestion
              {| body := body Q; example_answer := example_answer Q; rubric := r |}]> h).
Proof.
  intros Hq Hr. unfold ShortAnswerQuestion.set_rubric, ShortAnswerQuestion.is_Rubric.
  unfold mbind at 1, M_bind at 1. rewrite Hr.
  unfold mbind, M_bind, get_question, store. by rewrite Hq.
Qed.

Lemma set_rubric_refused (h : heap) (q r : addr) :
  (forall R, h !! r <> Some (ORubric R)) ->
  ShortAnswerQuestion.set_rubric q r h
  = (Raise (ValidationError (Text "Rubric must be an instance of the Rubric class.")), h).
Proof.
  intros Hr. unfold ShortAnswerQuestion.set_rubric, ShortAnswerQuestion.is_Rubric.
  unfold mbind at 1, M_bind at 1.
  destruct (h !! r) as [[g|R|Q]|] eqn:Hr'; try done. by destruct (Hr R).
Qed.

Lemma set_rubric_wf (q r : addr) (h : heap) :
  heap_wf h -> heap_wf (ShortAnswerQuestion.set_rubric q r h).2.
Proof.
  intros Hwf. destruct (h !! r) as [[g|R|Q]|] eqn:Hr.
  2:{ destruct (h !! q) as [[g|R'|Q]|] eqn:Hq.
      3:{ rewrite (set_rubric_run h q r Q R Hq Hr). cbn [snd].
          apply heap_wf_store; [done|intros g; congruence|]. split; eauto. }
      all: unfold ShortAnswerQuestion.set_rubric, ShortAnswerQuestion.is_Rubric;
        unfold mbind at 1, M_bind at 1; rewrite Hr;
        unfold mbind, M_bind, get_question; by rewrite Hq. }
  all: rewrite set_rubric_refused; [done|]; intros R'; congruence.
Qed.

(** X13: the methods of [ShortAnswerQuestion] that allocate or update keep
    the heap well formed, whether they return or raise; the constructor does
    so when its default and its rubric argument are rubrics. *)
Theorem ShortAnswerQuestion_methods_keep_heap_wf (h : heap) :
  heap_wf h ->
  heap_wf (ShortAnswerQuestion.def__init__ h).2
  /\ (forall d b e rubric R,
         h !! default d rubric = Some (ORubric R) ->
         heap_wf (ShortAnswerQuestion.__init__ d b e rubric h).2)
  /\ (forall q o w, heap_wf (ShortAnswerQuestion.add_criteria q o w h).2)
  /\ (forall q r, heap_wf (ShortAnswerQuestion.set_rubric q r h).2)
  /\ (forall d b e rt, heap_wf (ShortAnswerQuestion.from_rubric_type d b e rt h).2).
Proof.
  intros Hwf. split; [|split; [|split; [|split]]].
  - apply heap_wf_alloc; [done|]. by intros o c Hc.
  - intros d b e rubric R HR. apply heap_wf_alloc; [done|]. by exists R.
  - intros q o w. by apply question_add_criteria_wf.
  - intros q r. by apply set_rubric_wf.
  - intros d b e rt. unfold ShortAnswerQuestion.from_rubric_type.
    erewrite bind_ok by apply from_rubric_type_run.
    pose proof (from_rubric_type_wf rt h Hwf) as Hwf1.
    rewrite from_rubric_type_run in Hwf1. cbn [snd] in Hwf1.
    apply heap_wf_alloc; [done|]. eexists. cbn. apply built_rubric_lookup.
Qed.

Lemma ShortAnswerQuestion_methods_keep_heap_wf_witness :
  heap_wf (ShortAnswerQuestion.def__init__ []).2
  /\ (forall d b e rubric R,
         [] !! default d rubric = Some (ORubric R) ->
         heap_wf (ShortAnswerQuestion.__init__ d b e rubric []).2)
  /\ (forall q o w, heap_wf (ShortAnswerQuestion.add_criteria q o w []).2)
  /\ (forall q r, heap_wf (ShortAnswerQuestion.set_rubric q r []).2)
  /\ (forall d b e rt, heap_wf (ShortAnswerQuestion.from_rubric_type d b e rt []).2).
Proof. apply (ShortAnswerQuestion_methods_keep_heap_wf []). apply heap_wf_nil. Defined.



(** X15: [set_rubric] given anything that is not a [Rubric] raises the
    ValidationError "Rubric must be an instance of the Rubric class." and
    changes nothing; the guard comes before any look at the question. *)
Theorem ShortAnswerQuestion_set_rubric_refuses (h : heap) (q r : addr) :
  (forall R, h !! r <> Some (ORubric R)) ->
  ShortAnswerQuestion.set_rubric q r h
  = (Raise (ValidationError (Text "Rubric must be an instance of the Rubric class.")), h).
Proof. apply set_rubric_refused. Qed.

Lemma ShortAnswerQuestion_set_rubric_refuses_witness :
  let h := [ORubric {| criteria := ∅; _type := CUSTOM_RUBRIC |};
            OShortAnswerQuestion {| body := "b"; example_answer := "e"; rubric := 0 |}] in
  ShortAnswerQuestion.set_rubric 1 1 h
  = (Raise (ValidationError (Text "Rubric must be an instance of the Rubric class.")), h).
Proof.
  intros h. apply (ShortAnswerQuestion_set_rubric_refuses h 1 1). intros R. discriminate.
Defined.

(** X16: validation is lazy.  A question whose body and example answer are
    not empty passes [_is_valid] after one [add_criteria] with a valid weight,
    whatever its rubric held before, an empty rubric included. *)
Theorem ShortAnswerQuestion_valid_after_add_criteria (h : heap) (q : addr)
    (Q : ShortAnswerQuestion_t) (R : Rubric_t) (o : Objective.t) (w : float) :
  h !! q = Some (OShortAnswerQuestion Q) ->
  h !! rubric Q = Some (ORubric R) ->
  body Q <> "" ->
  example_answer Q <> "" ->
  valid_weight w ->
  exists h',
    ShortAnswerQuestion.add_criteria q o w h = (Ok tt, h')
    /\ ShortAnswerQuestion._is_valid q h' = (Ok tt, h').
Proof.
  intros Hq Hr Hb He Hw.
  pose proof (lookup_lt_Some _ _ _ Hq) as Hq_lt.
  pose proof (lookup_lt_Some _ _ _ Hr) as Hr_lt.
  eexists. split.
  { rewrite (question_add_criteria_run h q Q o w Hq). by apply add_criteria_run. }
  erewrite is_valid_run.
  2:{ rewrite add_criteria_heap_lookup_old; [exact Hq| |done]. intros ->. congruence. }
  2:{ by apply add_criteria_heap_lookup_rubric. }
  cbn [criteria]. rewrite bool_decide_false.
  - destruct (body Q); [done|]. by destruct (example_answer Q).
  - intros Hsize. apply map_size_empty_inv in Hsize.
    by apply insert_non_empty in Hsize.
Qed.

Lemma ShortAnswerQuestion_valid_after_add_criteria_witness :
  let h := [ORubric {| criteria := ∅; _type := CUSTOM_RUBRIC |};
            OShortAnswerQuestion {| body := "What is the capital of Australia?";
                                    example_answer := "Canberra"; rubric := 0 |}] in
  (exists msg, ShortAnswerQuestion._is_valid 1 h = (Raise (ValidationError msg), h))
  /\ exists h',
      ShortAnswerQuestion.add_criteria 1 Objective.FACTUAL PyFloat.one h = (Ok tt, h')
      /\ ShortAnswerQuestion._is_valid 1 h' = (Ok tt, h').
Proof.
  intros h. split; [by eexists|].
  eapply (ShortAnswerQuestion_valid_after_add_criteria h 1); try reflexivity;
    discriminate.
Defined.

(** X17: the classmethod [from_rubric_type] always returns a question; with a
    body and an example answer that are not empty the question passes
    [_is_valid] for every preset but Custom, whose rubric is empty. *)
Theorem ShortAnswerQuestion_from_rubric_type_valid (d : addr) (b e : string)
    (rt : RubricType_t) (h : heap) :
  b <> "" ->
  e <> "" ->
  exists q h',
    ShortAnswerQuestion.from_rubric_type d b e rt h = (Ok q, h')
    /\ ShortAnswerQuestion._is_valid q h'
       = (if decide (rt = CUSTOM_RUBRIC)
          then Raise (ValidationError (Text "Rubric must have at least one criteria."))
          else Ok tt, h').
Proof.
  intros Hb He. destruct (default_criteria_facts rt) as (_ & Hnd & _).
  set (ds := RubricType._default_criteria rt) in *.
  set (h1 := h ++ (criteria_object <$> ds) ++ [built_rubric (length h) ds rt]).
  set (Q := {| body := b; example_answer := e; rubric := length h + length ds |}).
  exists (length h1), (h1 ++ [OShortAnswerQuestion Q]). split.
  { unfold ShortAnswerQuestion.from_rubric_type.
    by erewrite bind_ok by apply from_rubric_type_run. }
  erewrite (is_valid_run _ _ Q).
  2:{ by rewrite lookup_app_length. }
  2:{ apply lookup_app_l_Some. apply (built_rubric_lookup h ds rt []). }
  cbn [criteria]. rewrite built_rubric_size by done.
  assert (Hlen : length ds = 0 <-> rt = CUSTOM_RUBRIC) by by destruct rt.
  case_bool_decide as Hz; case_decide as Hc; try tauto.
  cbn [body example_answer Q]. destruct b; [done|]. by destruct e.
Qed.

Lemma ShortAnswerQuestion_from_rubric_type_valid_witness :
  exists q h',
    ShortAnswerQuestion.from_rubric_type 0 "What is the capital of Australia?" "Canberra"
      FACTUAL_RUBRIC [] = (Ok q, h')
    /\ ShortAnswerQuestion._is_valid q h'
       = (if decide (FACTUAL_RUBRIC = CUSTOM_RUBRIC)
          then Raise (ValidationError (Text "Rubric must have at least one criteria."))
          else Ok tt, h').
Proof.
  apply (ShortAnswerQuestion_from_rubric_type_valid 0 "What is the capital of Australia?"
           "Canberra" FACTUAL_RUBRIC []); discriminate.
Defined.

Lemma serialize_fold_heap (l : list (Objective.t * addr)) (acc : gmap string float)
    (h : heap) :
  (for_fold (fun (acc : gmap string float) '(objective, c) =>
               g ← get_criteria c;
               mret (<[Objective.value objective := weight g]> acc))
     acc l h).2 = h.
Proof.
  revert acc. induction l as [|[o c] l IH]; intros acc; [done|].
  cbn [for_fold]. rewrite bind_assoc_run.
  unfold mbind at 1, M_bind at 1, get_criteria.
  destruct (h !! c) as [[g| |]|]; try done.
  erewrite bind_ok by reflexivity. apply IH.
Qed.

Lemma serialize_heap (r : addr) (h : heap) : (Rubric.serialize r h).2 = h.
Proof.
  unfold Rubric.serialize. unfold mbind at 1, M_bind at 1, get_rubric.
  destruct (h !! r) as [[|R|]|]; try done. apply serialize_fold_heap.
Qed.

Lemma question_serialize_heap (q : addr) (h : heap) :
  (ShortAnswerQuestion._serialize q h).2 = h.
Proof.
  unfold ShortAnswerQuestion._serialize. unfold mbind at 1, M_bind at 1, get_question.
  destruct (h !! q) as [[| |Q]|]; try done.
  unfold mbind, M_bind. pose proof (serialize_heap (rubric Q) h) as Hs.
  by destruct (Rubric.serialize (rubric Q) h) as [[s|e] h'].
Qed.

Lemma is_valid_heap (q : addr) (h : heap) : (ShortAnswerQuestion._is_valid q h).2 = h.
Proof.
  unfold ShortAnswerQuestion._is_valid. unfold mbind at 1, M_bind at 1, get_question.
  destruct (h !! q) as [[| |Q]|]; try done.
  unfold Rubric.size, mbind, M_bind, get_rubric.
  destruct (h !! rubric Q) as [[|R|]|]; try done.
  cbn. case_bool_decide; [done|]. by destruct (negb _).
Qed.

(** X18: serialization, validation and grading only read.  Whether they
    return or raise, and whatever the transport answers, the heap after
    [Rubric.serialize], [_serialize], [_is_valid] and [grade] is the heap
    before: no question, rubric or criteria is changed or created. *)
Theorem reading_methods_leave_heap (h : heap) (a : addr) (answer : string)
    (environ : gmap string string)
    (requests_post : string -> json -> gmap string string -> result RPCClient.Response) :
  (Rubric.serialize a h).2 = h
  /\ (ShortAnswerQuestion._serialize a h).2 = h
  /\ (ShortAnswerQuestion._is_valid a h).2 = h
  /\ (ShortAnswerQuestion.grade environ requests_post a answer h).2 = h.
Proof.
  split; [apply serialize_heap|]. split; [apply question_serialize_heap|].
  split; [apply is_valid_heap|].
  unfold ShortAnswerQuestion.grade, mbind, M_bind, lift.
  pose proof (question_serialize_heap a h) as Hs.
  destruct (ShortAnswerQuestion._serialize a h) as [[data|e] h']; [|done].
  cbn in Hs. subst h'.
  by destruct (RPCClient.short_answer _ _ _ _) as [[feedback score]|e].
Qed.

(** X19: questions that are each given a rubric of their own share nothing:
    a criteria added through the first shows in its rubric only; the rubric of
    the second and the default rubric stay empty. *)
Theorem own_rubrics_are_not_shared (h : heap) (b1 e1 b2 e2 : string)
    (o : Objective.t) (w : float) :
  valid_weight w ->
  exists h', own_rubric_scenario b1 e1 b2 e2 o w h = (Ok (1, 0, 0), h').
Proof.
  intros Hw. eexists.
  rewrite <-(app_nil_r h) at 1.
  unfold own_rubric_scenario, ShortAnswerQuestion.def__init__, Rubric.empty,
    Rubric.__init__, ShortAnswerQuestion.__init__, Rubric.size,
    ShortAnswerQuestion.add_criteria, Rubric.add_criteria.
  repeat run_step.
  rewrite map_size_empty.
  rewrite (map_size_insert_None o) by apply lookup_empty.
  by rewrite map_size_empty.
Qed.

Lemma own_rubrics_are_not_shared_witness :
  exists h',
    own_rubric_scenario "body" "answer" "another body" "another answer"
      Objective.FACTUAL PyFloat.one [] = (Ok (1, 0, 0), h').
Proof.
  apply (own_rubrics_are_not_shared [] "body" "answer" "another body" "another answer"
           Objective.FACTUAL PyFloat.one).
  reflexivity.
Defined.

(** ** RPCClient: failures and configuration *)

Lemma parse_response_not_object (v : json) :
  is_object v = false ->
  exists msg, RPCClient.parse_response {| RPCClient.Response_json := Ok v |}
              = Raise (TypeError msg).
Proof.
  intros Hv. unfold RPCClient.parse_response. cbn.
  destruct v as [| | | |s|items|fields]; try done; cbn; try by eexists.
  - destruct (occurs "error" s); by eexists.
  - destruct (existsb _ items); by eexists.
Qed.

(** X20: [short_answer] has no recovery.  What the transport raises, and what
    decoding the reply raises, reaches the caller unchanged; a reply that is
    not a dict, or whose "result" is not a dict, ends in a TypeError; a dict
    with neither "error" nor "result" ends in KeyError "result". *)
Theorem RPCClient_short_answer_failures
    (requests_post : string -> json -> gmap string string -> result RPCClient.Response)
    (self : RPCClient.t) (data : json) (answer : string) :
  let reply := requests_post (RPCClient.endpoint self)
                 (RPCClient.payload "short_answer" (JArr [data; JStr answer]))
                 (RPCClient.headers self) in
  (forall e, reply = Raise e ->
             RPCClient.short_answer requests_post self data answer = Raise e)
  /\ (forall e, reply = Ok {| RPCClient.Response_json := Raise e |} ->
                RPCClient.short_answer requests_post self data answer = Raise e)
  /\ (forall v, reply = Ok {| RPCClient.Response_json := Ok v |} ->
                is_object v = false ->
                exists msg,
                  RPCClient.short_answer requests_post self data answer
                  = Raise (TypeError msg))
  /\ (forall fields, reply = Ok {| RPCClient.Response_json := Ok (JObj fields) |} ->
                     fields !! "error" = None -> fields !! "result" = None ->
                     RPCClient.short_answer requests_post self data answer
                     = Raise (KeyError "result"))
  /\ (forall fields result,
         reply = Ok {| RPCClient.Response_json := Ok (JObj fields) |} ->
         fields !! "error" = None -> fields !! "result" = Some result ->
         is_object result = false ->
         exists msg,
           RPCClient.short_answer requests_post self data answer = Raise (TypeError msg)).
Proof.
  intros reply. unfold RPCClient.short_answer, RPCClient._make_request. fold reply.
  split; [|split; [|split; [|split]]].
  - by intros e ->.
  - by intros e ->.
  - intros v -> Hv. cbn [mbind result_bind].
    destruct (parse_response_not_object v Hv) as [msg ->]. by exists msg.
  - intros fields -> He Hr. cbn [mbind result_bind].
    by rewrite parse_response_result, Hr.
  - intros fields result -> He Hr Hres. cbn [mbind result_bind].
    rewrite parse_response_result, Hr by done.
    destruct result; try done; cbn; by eexists.
Qed.

(** X21: the endpoint is the variable OVERRIDDEN_ENDPOINT when it is set and
    not empty, and the hosted endpoint otherwise; the Authorization header
    carries the key given to the constructor when there is one and it is not
    empty, and otherwise the variable TURING_API_KEY, or nothing after
    "Bearer " when that is not set. *)
Theorem RPCClient_configuration (environ : gmap string string) (api_key : option string) :
  let self := RPCClient.__init__ environ api_key in
  (forall e, environ !! "OVERRIDDEN_ENDPOINT" = Some e -> e <> "" ->
             RPCClient.endpoint self = e)
  /\ (environ !! "OVERRIDDEN_ENDPOINT" = None \/ environ !! "OVERRIDDEN_ENDPOINT" = Some "" ->
      RPCClient.endpoint self = RPCClient.HOSTED_ENDPOINT)
  /\ (forall k, api_key = Some k -> k <> "" ->
                RPCClient.headers self = {[ "Authorization" := String.append "Bearer " k ]})
  /\ (api_key = None \/ api_key = Some "" ->
      RPCClient.headers self
      = {[ "Authorization" :=
             String.append "Bearer " (default "" (environ !! "TURING_API_KEY")) ]}).
Proof.
  intros self. unfold self, RPCClient.__init__, RPCClient.headers. cbn.
  split; [|split; [|split]].
  - intros e -> He. cbn. by destruct e.
  - by intros [-> | ->].
  - intros k -> Hk. by destruct k.
  - by intros [-> | ->].
Qed.

Lemma RPCClient_configuration_witness :
  let environ : gmap string string :=
    {[ "OVERRIDDEN_ENDPOINT" := "http://localhost:8000/"; "TURING_API_KEY" := "from-env" ]} in
  RPCClient.endpoint (RPCClient.__init__ environ None) = "http://localhost:8000/"
  /\ RPCClient.endpoint (RPCClient.__init__ ∅ None) = RPCClient.HOSTED_ENDPOINT
  /\ RPCClient.headers (RPCClient.__init__ environ (Some "given"))
     = {[ "Authorization" := "Bearer given" ]}
  /\ RPCClient.headers (RPCClient.__init__ environ (Some ""))
     = {[ "Authorization" := "Bearer from-env" ]}.
Proof.
  intros environ. split; [|split; [|split]].
  - destruct (RPCClient_configuration environ None) as (H & _).
    by apply H.
  - destruct (RPCClient_configuration ∅ None) as (_ & H & _).
    apply H. by left.
  - destruct (RPCClient_configuration environ (Some "given")) as (_ & _ & H & _).
    by rewrite (H "given").
  - destruct (RPCClient_configuration environ (Some "")) as (_ & _ & _ & H).
    rewrite H by (by right). reflexivity.
Defined.

Lemma RPCClient_short_answer_failures_witness :
  RPCClient.short_answer (fun _ _ _ => Raise (Exception (JStr "connection refused")))
    (RPCClient.__init__ ∅ None) JNull "answer"
  = Raise (Exception (JStr "connection refused"))
  /\ RPCClient.short_answer (canned_transport (JObj ∅)) (RPCClient.__init__ ∅ None)
       JNull "answer"
     = Raise (KeyError "result")
  /\ exists msg,
      RPCClient.short_answer (canned_transport (JArr [JStr "error"]))
        (RPCClient.__init__ ∅ None) JNull "answer"
      = Raise (TypeError msg).
Proof.
  split; [|split].
  - destruct (RPCClient_short_answer_failures
                (fun _ _ _ => Raise (Exception (JStr "connection refused")))
                (RPCClient.__init__ ∅ None) JNull "answer") as (H & _).
    by apply H.
  - destruct (RPCClient_short_answer_failures (canned_transport (JObj ∅))
                (RPCClient.__init__ ∅ None) JNull "answer") as (_ & _ & _ & H & _).
    by apply (H ∅).
  - destruct (RPCClient_short_answer_failures (canned_transport (JArr [JStr "error"]))
                (RPCClient.__init__ ∅ None) JNull "answer") as (_ & _ & H & _).
    by apply (H (JArr [JStr "error"])).
Defined.

(** ** ShortAnswerQuestion: serialization and [from_dict] *)

(** X22: [from_dict] raises KeyError for the first key it misses, in the
    order "body", "example_answer", "rubric", before anything is created; with
    the three keys present, what [Rubric.from_dict] raises on the rubric
    reaches the caller and no question is made. *)
Theorem ShortAnswerQuestion_from_dict_failures (d : addr) (p : question_payload)
    (h : heap) :
  (payload_body p = None ->
   ShortAnswerQuestion_from_dict d p h = (Raise (KeyError "body"), h))
  /\ (forall b, payload_body p = Some b -> payload_example_answer p = None ->
      ShortAnswerQuestion_from_dict d p h = (Raise (KeyError "example_answer"), h))
  /\ (forall b e, payload_body p = Some b -> payload_example_answer p = Some e ->
      payload_rubric p = None ->
      ShortAnswerQuestion_from_dict d p h = (Raise (KeyError "rubric"), h))
  /\ (forall b e r exn h',
         payload_body p = Some b -> payload_example_answer p = Some e ->
         payload_rubric p = Some r ->
         Rubric.from_dict r h = (Raise exn, h') ->
         ShortAnswerQuestion_from_dict d p h = (Raise exn, h')).
Proof.
  unfold ShortAnswerQuestion_from_dict. split; [|split; [|split]].
  - by intros ->.
  - by intros b -> ->.
  - by intros b e -> -> ->.
  - intros b e r exn h' -> -> -> Hr. cbn [payload_getitem].
    do 3 (erewrite bind_ok by reflexivity). by erewrite bind_raise by exact Hr.
Qed.

Lemma ShortAnswerQuestion_from_dict_failures_witness :
  ShortAnswerQuestion_from_dict 0
    {| payload_body := None; payload_example_answer := None; payload_rubric := None |} []
  = (Raise (KeyError "body"), [])
  /\ ShortAnswerQuestion_from_dict 0
       {| payload_body := Some "b"; payload_example_answer := Some "e";
          payload_rubric := Some (PayloadStr "rubric") |} []
     = (Raise (ValidationError (Text "Invalid payload provided. Must be a dictionary.")),
        []).
Proof.
  split.
  - destruct (ShortAnswerQuestion_from_dict_failures 0
                {| payload_body := None; payload_example_answer := None;
                   payload_rubric := None |} []) as (H & _).
    by apply H.
  - destruct (ShortAnswerQuestion_from_dict_failures 0
                {| payload_body := Some "b"; payload_example_answer := Some "e";
                   payload_rubric := Some (PayloadStr "rubric") |} [])
      as (_ & _ & _ & H).
    by apply (H "b" "e" (PayloadStr "rubric")).
Defined.

(** X23: from a dict with the three keys whose rubric has distinct known
    labels and valid weights, [from_dict] makes a question with that body and
    example answer, empty or not, and a new rubric, tagged Custom, that
    serializes to the rubric of the dict. *)
Theorem ShortAnswerQuestion_from_dict_reads (d : addr) (b e : string)
    (items : list (string * float)) (h : heap) :
  NoDup items.*1 ->
  Forall (fun it => is_Some (Objective.of_value it.1) /\ valid_weight it.2) items ->
  exists q r h',
    ShortAnswerQuestion_from_dict d
      {| payload_body := Some b; payload_example_answer := Some e;
         payload_rubric := Some (PayloadDict items) |} h
    = (Ok q, h')
    /\ get_question q h' = (Ok {| body := b; example_answer := e; rubric := r |}, h')
    /\ Rubric.serialize r h' = (Ok (list_to_map items), h')
    /\ Rubric.rubric_type r h' = (Ok CUSTOM_RUBRIC, h').
Proof.
  intros Hnd Hall.
  destruct (known_items items) as [ds ->].
  { eapply Forall_impl; [exact Hall|]. by intros it [? _]. }
  assert (Hv : Forall (fun p => valid_weight p.2) ds).
  { apply Forall_fmap in Hall. eapply Forall_impl; [exact Hall|].
    by intros [o w] [_ ?]. }
  assert (Hnd' : NoDup ds.*1).
  { apply (NoDup_fmap_1 Objective.value). by rewrite <-wire_item_fst. }
  set (h2 := h ++ (criteria_object <$> ds) ++ [built_rubric (length h) ds CUSTOM_RUBRIC]).
  set (Q := {| body := b; example_answer := e; rubric := length h + length ds |}).
  assert (Hh' : h2 ++ [OShortAnswerQuestion Q]
                = h ++ (criteria_object <$> ds)
                    ++ built_rubric (length h) ds CUSTOM_RUBRIC :: [OShortAnswerQuestion Q]).
  { unfold h2. by rewrite <-!app_assoc. }
  exists (length h2), (length h + length ds), (h2 ++ [OShortAnswerQuestion Q]).
  split.
  { unfold ShortAnswerQuestion_from_dict. cbn [payload_getitem payload_body
      payload_example_answer payload_rubric].
    do 3 (erewrite bind_ok by reflexivity).
    erewrite bind_ok.
    2:{ rewrite from_dict_run by done. by rewrite foldl_built_rubric. }
    done. }
  split; [unfold get_question; by rewrite lookup_app_length|].
  pose proof (built_rubric_lookup h ds CUSTOM_RUBRIC [OShortAnswerQuestion Q]) as Hr.
  rewrite Hh'. split.
  - erewrite serialize_wf; [|exact Hr|by apply built_rubric_wf_rest].
    rewrite rubric_weights_built by done.
    rewrite wire_item_prod_map. by rewrite kmap_list_to_map by apply _.
  - by erewrite rubric_type_run by exact Hr.
Qed.

Lemma ShortAnswerQuestion_from_dict_reads_witness :
  exists q r h',
    ShortAnswerQuestion_from_dict 0
      {| payload_body := Some ""; payload_example_answer := Some "Canberra";
         payload_rubric := Some (PayloadDict [("creativity", PyFloat.half)]) |} []
    = (Ok q, h')
    /\ get_question q h'
       = (Ok {| body := ""; example_answer := "Canberra"; rubric := r |}, h')
    /\ Rubric.serialize r h' = (Ok (list_to_map [("creativity", PyFloat.half)]), h')
    /\ Rubric.rubric_type r h' = (Ok CUSTOM_RUBRIC, h').
Proof.
  apply (ShortAnswerQuestion_from_dict_reads 0 "" "Canberra"
           [("creativity", PyFloat.half)] []).
  - apply (bool_decide_unpack _). by vm_compute.
  - repeat constructor; by eexists.
Defined.

Lemma question_serialize_wf (h : heap) (q : addr) (Q : ShortAnswerQuestion_t)
    (R : Rubric_t) :
  h !! q = Some (OShortAnswerQuestion Q) ->
  h !! rubric Q = Some (ORubric R) ->
  rubric_wf h R ->
  ShortAnswerQuestion._serialize q h
  = (Ok (JObj {[ "question" := JStr (body Q);
                 "example_answer" := JStr (example_answer Q);
                 "rubric" := JObj (JFloat <$> kmap Objective.value (rubric_weights h R)) ]}),
     h).
Proof.
  intros Hq Hr Hwf. apply short_answer_serialize; [done|]. by apply serialize_wf.
Qed.

(** X24: for every question of a well formed heap, [_serialize] of
    short_answer.py returns a dict with exactly the keys "question",
    "example_answer" and "rubric": the body under "question", the example
    answer, and the serialization of the rubric; the rubric may be empty and
    the strings too. *)
Theorem ShortAnswerQuestion_serialize_keys (h : heap) (q : addr)
    (Q : ShortAnswerQuestion_t) (R : Rubric_t) :
  h !! q = Some (OShortAnswerQuestion Q) ->
  h !! rubric Q = Some (ORubric R) ->
  rubric_wf h R ->
  exists fields s,
    ShortAnswerQuestion._serialize q h = (Ok (JObj fields), h)
    /\ Rubric.serialize (rubric Q) h = (Ok s, h)
    /\ dom fields = {[ "question"; "example_answer"; "rubric" ]}
    /\ fields !! "question" = Some (JStr (body Q))
    /\ fields !! "example_answer" = Some (JStr (example_answer Q))
    /\ fields !! "rubric" = Some (JObj (JFloat <$> s)).
Proof.
  intros Hq Hr Hwf. eexists _, _.
  split; [by apply (question_serialize_wf h q Q R)|].
  split; [by apply serialize_wf|].
  split; [|split; [|split]].
  - rewrite !dom_insert_L, dom_singleton_L. set_solver.
  - by simplify_map_eq.
  - by simplify_map_eq.
  - by simplify_map_eq.
Qed.

Lemma ShortAnswerQuestion_serialize_keys_witness :
  let Q := {| body := ""; example_answer := "Canberra"; rubric := 0 |} in
  let h := [ORubric {| criteria := ∅; _type := CUSTOM_RUBRIC |}; OShortAnswerQuestion Q] in
  exists fields s,
    ShortAnswerQuestion._serialize 1 h = (Ok (JObj fields), h)
    /\ Rubric.serialize (rubric Q) h = (Ok s, h)
    /\ dom fields = {[ "question"; "example_answer"; "rubric" ]}
    /\ fields !! "question" = Some (JStr (body Q))
    /\ fields !! "example_answer" = Some (JStr (example_answer Q))
    /\ fields !! "rubric" = Some (JObj (JFloat <$> s)).
Proof.
  intros Q h.
  apply (ShortAnswerQuestion_serialize_keys h 1 Q {| criteria := ∅; _type := CUSTOM_RUBRIC |});
    try reflexivity.
  by intros o c Hc.
Defined.

Lemma as_question_payload_body (fields : gmap string json) (p : question_payload) :
  as_question_payload (JObj fields) = Some p ->
  fields !! "body" = None ->
  payload_body p = None.
Proof.
  unfold as_question_payload. intros Hp Hb. rewrite Hb in Hp. cbn in Hp.
  destruct (as_entry as_str (fields !! "example_answer")) as [e|]; [|done].
  destruct (as_entry as_rubric_payload (fields !! "rubric")) as [r|]; [|done].
  cbn in Hp. by injection Hp as <-.
Qed.

Lemma question_serialize_shape (q : addr) (h : heap) (data : json) (h' : heap) :
  ShortAnswerQuestion._serialize q h = (Ok data, h') ->
  exists fields, data = JObj fields /\ fields !! "body" = None.
Proof.
  unfold ShortAnswerQuestion._serialize. unfold mbind at 1, M_bind at 1, get_question.
  destruct (h !! q) as [[| |Q]|]; try done.
  unfold mbind, M_bind. destruct (Rubric.serialize (rubric Q) h) as [[s|e] h1]; [|done].
  intros [= <- _]. eexists. split; [done|]. by simplify_map_eq.
Qed.

(** X25: [from_dict] cannot read what [_serialize] of the same class
    writes: handed the serialization of any question, it raises KeyError
    "body", since the body was written under "question". *)
Theorem ShortAnswerQuestion_from_dict_of_serialize (d q : addr) (h : heap) (data : json)
    (p : question_payload) :
  ShortAnswerQuestion._serialize q h = (Ok data, h) ->
  as_question_payload data = Some p ->
  ShortAnswerQuestion_from_dict d p h = (Raise (KeyError "body"), h).
Proof.
  intros Hs Hp. destruct (question_serialize_shape q h data h Hs) as (fields & -> & Hb).
  pose proof (as_question_payload_body fields p Hp Hb) as Hbody.
  unfold ShortAnswerQuestion_from_dict. by rewrite Hbody.
Qed.

Lemma ShortAnswerQuestion_from_dict_of_serialize_witness :
  let Q := {| body := "What is the capital of Australia?"; example_answer := "Canberra";
              rubric := 0 |} in
  let h := [ORubric {| criteria := {[ Objective.FACTUAL := 2 ]}; _type := CUSTOM_RUBRIC |};
            OShortAnswerQuestion Q; criteria_object (Objective.FACTUAL, PyFloat.one)] in
  ShortAnswerQuestion_from_dict 0
    {| payload_body := None; payload_example_answer := Some "Canberra";
       payload_rubric := Some (PayloadDict [("factual understanding", PyFloat.one)]) |} h
  = (Raise (KeyError "body"), h).
Proof.
  intros Q h.
  eapply (ShortAnswerQuestion_from_dict_of_serialize 0 1 h); by vm_compute.
Defined.

Lemma omap_as_float_fmap (s : gmap string float) :
  omap as_float (JFloat <$> s) = s.
Proof.
  apply map_eq. intros k. rewrite lookup_omap, lookup_fmap. by destruct (s !! k).
Qed.

Lemma as_rubric_payload_floats (s : gmap string float) :
  as_rubric_payload (JObj (JFloat <$> s)) = Some (PayloadDict (map_to_list s)).
Proof.
  unfold as_rubric_payload. rewrite bool_decide_true.
  - by rewrite omap_as_float_fmap.
  - intros k x Hx. rewrite lookup_fmap in Hx.
    destruct (s !! k) as [w|]; [|done]. injection Hx as <-. by eexists.
Qed.

(** X26: [from_dict] reads what [_serialize] of question.py writes, which
    has the body under "body": from the serialization of a question of a well
    formed heap it makes a question with the same body and example answer, and
    a new rubric, tagged Custom, with the same weight under every objective. *)
Theorem ShortAnswerQuestion_from_dict_of_question_py (d q : addr) (h : heap)
    (Q : ShortAnswerQuestion_t) (R : Rubric_t) :
  h !! q = Some (OShortAnswerQuestion Q) ->
  h !! rubric Q = Some (ORubric R) ->
  rubric_wf h R ->
  exists data p q' r' h',
    question.ShortAnswerQuestion__serialize q h = (Ok data, h)
    /\ as_question_payload data = Some p
    /\ ShortAnswerQuestion_from_dict d p h = (Ok q', h')
    /\ get_question q' h'
       = (Ok {| body := body Q; example_answer := example_answer Q; rubric := r' |}, h')
    /\ (forall o, weight_of h' r' o = weight_of h (rubric Q) o)
    /\ Rubric.rubric_type r' h' = (Ok CUSTOM_RUBRIC, h').
Proof.
  intros Hq Hr Hwf. set (W := rubric_weights h R).
  destruct (from_dict_of_map W h (rubric_weights_valid h R Hwf))
    as (ds & Hrun & Hnd & Hlen & HW).
  set (s := kmap Objective.value W : gmap string float) in *.
  set (h2 := h ++ (criteria_object <$> ds) ++ [built_rubric (length h) ds CUSTOM_RUBRIC])
    in *.
  set (Q' := {| body := body Q; example_answer := example_answer Q;
                rubric := length h + length ds |}).
  assert (Hh' : h2 ++ [OShortAnswerQuestion Q']
                = h ++ (criteria_object <$> ds)
                    ++ built_rubric (length h) ds CUSTOM_RUBRIC :: [OShortAnswerQuestion Q']).
  { unfold h2. by rewrite <-!app_assoc. }
  exists (JObj {[ "body" := JStr (body Q); "example_answer" := JStr (example_answer Q);
                  "rubric" := JObj (JFloat <$> s) ]}),
    {| payload_body := Some (body Q); payload_example_answer := Some (example_answer Q);
       payload_rubric := Some (PayloadDict (map_to_list s)) |},
    (length h2), (length h + length ds), (h2 ++ [OShortAnswerQuestion Q']).
  split.
  { apply question_py_serialize; [done|]. by apply serialize_wf. }
  split.
  { unfold as_question_payload.
    replace (_ !! "body") with (Some (JStr (body Q))) by (by simplify_map_eq).
    replace (_ !! "example_answer") with (Some (JStr (example_answer Q)))
      by (by simplify_map_eq).
    replace (_ !! "rubric") with (Some (JObj (JFloat <$> s))) by (by simplify_map_eq).
    unfold as_entry. by rewrite as_rubric_payload_floats. }
  split.
  { unfold ShortAnswerQuestion_from_dict. cbn [payload_getitem payload_body
      payload_example_answer payload_rubric].
    do 3 (erewrite bind_ok by reflexivity).
    by erewrite bind_ok by exact Hrun. }
  split; [unfold get_question; by rewrite lookup_app_length|].
  rewrite Hh'. split.
  - intros o. rewrite weight_of_built by done. rewrite HW.
    symmetry. by apply rubric_weights_lookup.
  - by erewrite rubric_type_run by apply built_rubric_lookup.
Qed.

Lemma ShortAnswerQuestion_from_dict_of_question_py_witness :
  let Q := {| body := "What is the capital of Australia?"; example_answer := "Canberra";
              rubric := 0 |} in
  let R := {| criteria := {[ Objective.FACTUAL := 2 ]}; _type := FACTUAL_RUBRIC |} in
  let h := [ORubric R; OShortAnswerQuestion Q;
            criteria_object (Objective.FACTUAL, PyFloat.one)] in
  exists data p q' r' h',
    question.ShortAnswerQuestion__serialize 1 h = (Ok data, h)
    /\ as_question_payload data = Some p
    /\ ShortAnswerQuestion_from_dict 0 p h = (Ok q', h')
    /\ get_question q' h'
       = (Ok {| body := body Q; example_answer := example_answer Q; rubric := r' |}, h')
    /\ (forall o, weight_of h' r' o = weight_of h (rubric Q) o)
    /\ Rubric.rubric_type r' h' = (Ok CUSTOM_RUBRIC, h').
Proof.
  intros Q R h.
  apply (ShortAnswerQuestion_from_dict_of_question_py 0 1 h Q R); try reflexivity.
  intros o c Hc. unfold R in Hc. cbn [criteria] in Hc.
  apply lookup_singleton_Some in Hc as [<- <-].
  exists PyFloat.one. split; reflexivity.
Defined.
